(** * Ethiopia financial-inclusion dashboard: forecasting and event overlay

    A shallow embedding of [src/dashboard/app.py]: the metric extractor
    ([trend_growth]), the trend forecaster ([fit_linear_forecast]), the
    event-effect compositor ([build_event_effects]) and the two column
    assignments of the Forecasts and Inclusion Projections tabs.

    Modelling conventions.
    - A pandas DataFrame of the unified data set is a list of rows, each a
      record of the columns the code reads.  A missing cell (NaN / NaT /
      None) is [None].
    - float64 values are exact rationals [Q]; rounding is outside the model,
      and NaN is a separate constructor ([None], or [NaN] in a forecast
      table).  Equality of values is [Qeq] ([==]).
    - [numpy.polyfit] and the square root inside [numpy.std] are library
      code: the forecaster is parametric in both.  An exception leaving a
      function is the result [None] of an [option] type.
    - Where a statement depends on what the library does beyond that (the
      order of rows of equal date, an infinite lag, the range of a
      Timestamp, float64 rounding), a second definition takes the library
      behaviour as a parameter or computes in binary64 ([Float64]).
    - A pandas Series indexed by year is an association list in index
      order. *)

From Stdlib Require Import ZArith QArith Qround List String Bool Lia Lqa.
From Stdlib Require Import Permutation Sorting.Sorted Setoid Morphisms.
From Stdlib Require Floats.PrimFloat.
Import ListNotations.

Local Open Scope string_scope.
Local Open Scope list_scope.
Local Open Scope Z_scope.

(* ------------------------------------------------------------------ *)
(** ** Timestamps and month offsets *)

(** A pandas [Timestamp]: calendar date and the nanoseconds elapsed in the
    day.  [NaT] is [None] at the use sites. *)
Record Timestamp : Type := mkTimestamp
  { ts_year : Z; ts_month : Z; ts_day : Z; ts_nanos : Z }.

Definition is_leap (y : Z) : bool :=
  ((y mod 4 =? 0) && negb (y mod 100 =? 0)) || (y mod 400 =? 0).

Definition days_in_month (y m : Z) : Z :=
  if m =? 2 then (if is_leap y then 29 else 28)
  else if (m =? 4) || (m =? 6) || (m =? 9) || (m =? 11) then 30
  else 31.

(** [t + pd.DateOffset(months=n)]: the month index moves by [n], the day is
    clipped to the length of the month reached, the clock is kept. *)
Definition DateOffset_months (t : Timestamp) (n : Z) : Timestamp :=
  let idx := ts_year t * 12 + (ts_month t - 1) + n in
  let y := idx / 12 in
  let m := idx mod 12 + 1 in
  mkTimestamp y m (Z.min (ts_day t) (days_in_month y m)) (ts_nanos t).

(** Chronological order of timestamps, as a boolean. *)
Definition ts_ltb (a b : Timestamp) : bool :=
  (ts_year a <? ts_year b)
  || ((ts_year a =? ts_year b)
      && ((ts_month a <? ts_month b)
          || ((ts_month a =? ts_month b)
              && ((ts_day a <? ts_day b)
                  || ((ts_day a =? ts_day b) && (ts_nanos a <? ts_nanos b)))))).

Definition ts_leb (a b : Timestamp) : bool := negb (ts_ltb b a).

(** Python's [int(x)] on a float: truncation toward zero. *)
Definition int_of_float (x : Q) : Z := Z.quot (Qnum x) (Zpos (Qden x)).

(* ------------------------------------------------------------------ *)
(** ** The unified record table *)

(** The [lag_months] cell as read from the CSV. *)
Inductive LagCell : Type :=
| LagNumber (q : Q)        (* a number, or text that reads as this number *)
| LagText (s : string)     (* text that is not a number *)
| LagMissing.

(** One row of the unified table; only the columns the code reads. *)
Record Row : Type := mkRow
  { record_id : option string;
    record_type : option string;
    parent_id : option string;
    indicator_code : option string;
    indicator : option string;
    gender : option string;
    value_numeric : option Q;
    observation_date : option Timestamp;
    related_indicator : option string;
    impact_magnitude : option string;
    impact_direction : option string;
    lag_months : LagCell;
    year : option Z }.

Definition DataFrame : Type := list Row.

(** [df["year"] = df["observation_date"].dt.year] of [load_data]. *)
Definition load_data_year (r : Row) : Row :=
  mkRow (record_id r) (record_type r) (parent_id r) (indicator_code r)
        (indicator r) (gender r) (value_numeric r) (observation_date r)
        (related_indicator r) (impact_magnitude r) (impact_direction r)
        (lag_months r) (option_map ts_year (observation_date r)).

(** [column == text]: a missing cell equals no text. *)
Definition col_eqb (c : option string) (s : string) : bool :=
  match c with
  | Some x => String.eqb x s
  | None => false
  end.

Definition notna {A : Type} (c : option A) : bool :=
  match c with Some _ => true | None => false end.

(* ------------------------------------------------------------------ *)
(** ** Metric extractor *)

(** [sort_values("observation_date")]: ascending, NaT last.  Modelled as a
    stable insertion sort (rows with equal dates keep their order). *)
Definition date_leb (a b : option Timestamp) : bool :=
  match a, b with
  | Some x, Some y => ts_leb x y
  | Some _, None => true
  | None, Some _ => false
  | None, None => true
  end.

Fixpoint insert_by_date (r : Row) (l : list Row) : list Row :=
  match l with
  | [] => [r]
  | x :: l' =>
      if date_leb (observation_date x) (observation_date r)
      then x :: insert_by_date r l'
      else r :: l
  end.

Definition sort_values_observation_date (df : DataFrame) : DataFrame :=
  fold_left (fun acc r => insert_by_date r acc) df [].

(** The rows [trend_growth] keeps: indicator, gender, record type. *)
Definition observation_of (code gen : string) (r : Row) : bool :=
  col_eqb (indicator_code r) code && col_eqb (gender r) gen
  && col_eqb (record_type r) "observation".

(** [dropna(subset=["value_numeric", "observation_date"])]. *)
Definition has_value_and_date (r : Row) : bool :=
  notna (value_numeric r) && notna (observation_date r).

Definition trend_subset (df : DataFrame) (code gen : string) : DataFrame :=
  sort_values_observation_date
    (filter has_value_and_date (filter (observation_of code gen) df)).

(** [subset.iloc[-1]] and [subset.iloc[-2]]. *)
Definition iloc_last2 {A : Type} (l : list A) : option (A * A) :=
  match rev l with
  | latest :: previous :: _ => Some (previous, latest)
  | _ => None
  end.

(** NaN-propagating subtraction of two cells. *)
Definition opt_sub (a b : option Q) : option Q :=
  match a, b with
  | Some x, Some y => Some (x - y)%Q
  | _, _ => None
  end.

Definition trend_growth (df : DataFrame) (code : string) (gen : string)
  : option Q :=
  let subset := trend_subset df code gen in
  if (Nat.ltb (List.length subset) 2) then None
  else match iloc_last2 subset with
       | Some (previous, latest) =>
           opt_sub (value_numeric latest) (value_numeric previous)
       | None => None
       end.

(** The default [gender="all"] of the signature. *)
Definition trend_growth_all (df : DataFrame) (code : string) : option Q :=
  trend_growth df code "all".

(* ------------------------------------------------------------------ *)
(** ** Forecast tables *)

(** A cell of a computed table: an integer, a float, or NaN. *)
Inductive cell : Type :=
| Int (z : Z)
| Float (q : Q)
| NaN.

(** A computed DataFrame: its columns by name, in insertion order. *)
Definition Frame : Type := list (string * list cell).

(** [frame[name]]; [None] stands for the KeyError of a missing column. *)
Fixpoint getitem (fr : Frame) (name : string) : option (list cell) :=
  match fr with
  | [] => None
  | (n, col) :: fr' => if String.eqb n name then Some col else getitem fr' name
  end.

(** [frame[name] = col]: replaces the column or appends a new one. *)
Fixpoint setitem (fr : Frame) (name : string) (col : list cell) : Frame :=
  match fr with
  | [] => [(name, col)]
  | (n, c) :: fr' =>
      if String.eqb n name then (n, col) :: fr'
      else (n, c) :: setitem fr' name col
  end.

Definition cell_value (c : cell) : option Q :=
  match c with
  | Int z => Some (inject_Z z)
  | Float q => Some q
  | NaN => None
  end.

(** Element-wise [+] and scalar [*]; NaN propagates. *)
Definition cell_add (a b : cell) : cell :=
  match a, b with
  | Int x, Int y => Int (x + y)
  | _, _ => match cell_value a, cell_value b with
            | Some x, Some y => Float (x + y)%Q
            | _, _ => NaN
            end
  end.

Definition cell_scale (a : cell) (k : Q) : cell :=
  match cell_value a with
  | Some x => Float (x * k)%Q
  | None => NaN
  end.

Definition add_cols (a b : list cell) : list cell :=
  map (fun p => cell_add (fst p) (snd p)) (combine a b).

(** [frame[name].iloc[i]]: the cell of row [i] in the named column. *)
Definition cell_at (fr : Frame) (name : string) (i : nat) : option cell :=
  match getitem fr name with
  | Some col => nth_error col i
  | None => None
  end.

(** [col.fillna(d)]. *)
Definition fillna_col (d : Q) (col : list cell) : list cell :=
  map (fun c => match c with NaN => Float d | _ => c end) col.

(* ------------------------------------------------------------------ *)
(** ** Trend forecaster *)

Definition Qsum (l : list Q) : Q := fold_left Qplus l 0%Q.

Definition Qmean (l : list Q) : Q :=
  (Qsum l / inject_Z (Z.of_nat (List.length l)))%Q.

(** [dropna(subset=["year", "value_numeric"])] followed by the two
    [.values] reads: the (year, value) points of the series. *)
Definition has_year_and_value (r : Row) : bool :=
  notna (year r) && notna (value_numeric r).

Definition point_of (r : Row) : list (Q * Q) :=
  match year r, value_numeric r with
  | Some x, Some v => [(inject_Z x, v)]
  | _, _ => []
  end.

Definition points (series_df : DataFrame) : list (Q * Q) :=
  flat_map point_of (filter has_year_and_value series_df).

(** The residual of a point against the line [v = slope * x + intercept]. *)
Definition residual (slope intercept : Q) (p : Q * Q) : Q :=
  (snd p - (intercept + slope * fst p))%Q.

Section Forecaster.

(** [numpy.polyfit(X, y, 1)], returning [(slope, intercept)]; [None] when
    the solver raises. *)
Variable polyfit : list Q -> list Q -> option (Q * Q).
(** The square root taken by [numpy.std]. *)
Variable sqrt : Q -> Q.

(** [residuals.std(ddof=1)]. *)
Definition std_ddof1 (l : list Q) : Q :=
  let m := Qmean l in
  sqrt (Qsum (map (fun r => (r - m) * (r - m))%Q l)
        / inject_Z (Z.of_nat (List.length l) - 1))%Q.

(** The band half-width is [1.96 * sigma]. *)
Definition sigma_of (residuals : list Q) : Q :=
  if Nat.ltb 1 (List.length residuals) then std_ddof1 residuals else 0%Q.

(** The result is [None] when an exception leaves the function, which only
    the solver can cause. *)
Definition fit_linear_forecast (series_df : DataFrame) (years : list Z)
  : option Frame :=
  let pts := points series_df in
  let X := map fst pts in
  let y := map snd pts in
  if Nat.ltb (List.length pts) 2 then
    Some [("year", map Int years);
          ("forecast", repeat NaN (List.length years));
          ("ci_low", repeat NaN (List.length years));
          ("ci_high", repeat NaN (List.length years))]
  else
    match polyfit X y with
    | None => None
    | Some (slope, intercept) =>
        let preds := map (fun t => intercept + slope * inject_Z t)%Q years in
        let residuals := map (residual slope intercept) pts in
        let sigma := sigma_of residuals in
        let ci_low := map (fun p => p - 1.96 * sigma)%Q preds in
        let ci_high := map (fun p => p + 1.96 * sigma)%Q preds in
        Some [("year", map Int years);
              ("forecast", map Float preds);
              ("ci_low", map Float ci_low);
              ("ci_high", map Float ci_high)]
    end.

End Forecaster.

(* ------------------------------------------------------------------ *)
(** ** Event-effect compositor *)

(** A pandas Series of effects indexed by year. *)
Definition Series : Type := list (Z * Q).

Fixpoint dict_get {V : Type} (d : list (string * V)) (k : string) : option V :=
  match d with
  | [] => None
  | (k', v) :: d' => if String.eqb k' k then Some v else dict_get d' k
  end.

(** [column.map(d)]: a key outside the dict, or a missing cell, gives NaN. *)
Definition map_dict (d : list (string * Q)) (c : option string) : option Q :=
  match c with
  | Some k => dict_get d k
  | None => None
  end.

Definition fillna (d : Q) (c : option Q) : Q :=
  match c with
  | Some v => v
  | None => d
  end.

Definition magnitude_map : list (string * Q) :=
  [("high", 0.15%Q); ("medium", 0.08%Q); ("low", 0.03%Q);
   ("negligible", 0.01%Q)].

Definition direction_map : list (string * Q) :=
  [("increase", 1%Q); ("decrease", (-1)%Q); ("stabilize", 0%Q);
   ("mixed", 0%Q)].

(** A row of [joined]: the columns of the link keep their names (the left
    suffix of the merge is empty), the three columns taken from the event
    all collide with a column of the link and are renamed with the right
    suffix ["_event"]. *)
Record Joined : Type := mkJoined
  { link : Row;
    record_id_event : option string;
    observation_date_event : option Timestamp;
    indicator_event : option string }.

(** Key equality of [merge]: two missing keys match each other. *)
Definition key_eqb (a b : option string) : bool :=
  match a, b with
  | Some x, Some y => String.eqb x y
  | None, None => true
  | _, _ => false
  end.

(** [links.merge(events[...], left_on="parent_id", right_on="record_id",
    how="left", suffixes=("", "_event"))]: every link is kept, once per
    matching event, or once with missing event columns. *)
Definition merge_left (links events : DataFrame) : list Joined :=
  flat_map
    (fun l =>
       match filter (fun e => key_eqb (parent_id l) (record_id e)) events with
       | [] => [mkJoined l None None None]
       | es =>
           map (fun e => mkJoined l (record_id e) (observation_date e)
                                  (indicator e)) es
       end)
    links.

Definition effect_size (j : Joined) : Q :=
  fillna 0.0 (map_dict magnitude_map (impact_magnitude (link j))).

Definition direction_sign (j : Joined) : Q :=
  fillna 0.0 (map_dict direction_map (impact_direction (link j))).

Definition effect (j : Joined) : Q := (effect_size j * direction_sign j)%Q.

(** [pd.to_numeric(..., errors="coerce")]. *)
Definition to_numeric_coerce (c : LagCell) : option Q :=
  match c with
  | LagNumber q => Some q
  | LagText _ => None
  | LagMissing => None
  end.

Definition lag_months_num (j : Joined) : Q :=
  fillna 0 (to_numeric_coerce (lag_months (link j))).

(** [np.arange(a, b)] on integers. *)
Definition arange (a b : Z) : list Z :=
  map (fun i => a + Z.of_nat i) (seq 0 (Z.to_nat (b - a))).

(** [np.linspace(start, stop, num)] with the end point included. *)
Definition linspace (start stop : Q) (num : nat) : list Q :=
  match num with
  | O => []
  | S O => [start]
  | S n =>
      map (fun i => inject_Z (Z.of_nat i)
                    * ((stop - start) / inject_Z (Z.of_nat n)) + start)%Q
          (seq 0 n)
      ++ [stop]
  end.

Definition effect_series (event_date : option Timestamp)
    (effect lag_months : Q) : Series :=
  match event_date with
  | None => []
  | Some d =>
      let start := ts_year (DateOffset_months d (int_of_float lag_months)) in
      let years := arange start (start + 3) in
      let ramp := linspace 0.3 1.0 3 in
      combine years (map (fun w => effect * w)%Q ramp)
  end.

(** [groupby("year")["effect"].sum()]: one entry per distinct year, in
    ascending order of year, holding the sum of that year's rows. *)
Fixpoint insert_key (k : Z) (l : list Z) : list Z :=
  match l with
  | [] => [k]
  | x :: l' =>
      if k <? x then k :: l
      else if k =? x then l
      else x :: insert_key k l'
  end.

Definition sorted_keys (ks : list Z) : list Z :=
  fold_left (fun acc k => insert_key k acc) ks [].

Definition group_values (effects : list (Z * Q)) (k : Z) : list Q :=
  map snd (filter (fun e => fst e =? k) effects).

Definition groupby_sum (effects : list (Z * Q)) : Series :=
  map (fun k => (k, Qsum (group_values effects k)))
      (sorted_keys (map fst effects)).

(** The rows the loop visits and what each appends to [effects]: the date
    read is the column named ["observation_date"] of [joined], which is the
    link's own. *)
Definition loop_rows (joined : list Joined) (target_code : string)
  : list Joined :=
  filter (fun j => col_eqb (related_indicator (link j)) target_code) joined.

Definition row_effects (j : Joined) : list (Z * Q) :=
  effect_series (observation_date (link j)) (effect j) (lag_months_num j).

Definition build_event_effects (df : DataFrame) (target_code : string)
  : Series :=
  let events := filter (fun r => col_eqb (record_type r) "event") df in
  let links := filter (fun r => col_eqb (record_type r) "impact_link") df in
  match events, links with
  | [], _ => []
  | _, [] => []
  | _, _ =>
      let joined := merge_left links events in
      let effects := flat_map row_effects (loop_rows joined target_code) in
      match effects with
      | [] => []
      | _ => groupby_sum effects
      end
  end.

(* ------------------------------------------------------------------ *)
(** ** Forecasts and Inclusion Projections tabs *)

Fixpoint series_get (s : Series) (k : Z) : option Q :=
  match s with
  | [] => None
  | (k', v) :: s' => if k' =? k then Some v else series_get s' k
  end.

(** The index label a cell denotes, if any. *)
Definition cell_key (c : cell) : option Z :=
  match c with
  | Int z => Some z
  | Float q => if Qeq_bool q (inject_Z (Qfloor q)) then Some (Qfloor q)
               else None
  | NaN => None
  end.

(** [col.map(series)]: the value at the cell's label, NaN where absent. *)
Definition map_series (col : list cell) (s : Series) : list cell :=
  map (fun c => match cell_key c with
                | Some k => match series_get s k with
                            | Some v => Float v
                            | None => NaN
                            end
                | None => NaN
                end) col.

(** Lines 188-195: the assignment of the ["forecast_event"] column. *)
Definition assign_forecast_event (use_events : bool) (fc : Frame)
    (effects : Series) : option Frame :=
  if use_events then
    match getitem fc "forecast", getitem fc "year" with
    | Some f, Some y =>
        Some (setitem fc "forecast_event"
                (add_cols f (fillna_col 0 (map_series y effects))))
    | _, _ => None
    end
  else
    match getitem fc "forecast" with
    | Some f => Some (setitem fc "forecast_event" f)
    | None => None
    end.

Inductive Scenario : Type := pessimistic | base | optimistic.

Definition scenario_factors (s : Scenario) : Q :=
  match s with
  | pessimistic => 0.85%Q
  | base => 1.0%Q
  | optimistic => 1.15%Q
  end.

(** Line 230: [access_fc["scenario"] = access_fc["forecast"] * factor]. *)
Definition scale_col (col : list cell) (k : Q) : list cell :=
  map (fun c => cell_scale c k) col.

Definition assign_scenario (fc : Frame) (s : Scenario) : option Frame :=
  match getitem fc "forecast" with
  | Some f => Some (setitem fc "scenario" (scale_col f (scenario_factors s)))
  | None => None
  end.

(* ------------------------------------------------------------------ *)
(** ** Reference instances and sample tables *)

(** The closed-form line of the normal equations in exact arithmetic, used
    to run the forecaster on the sample tables. *)
Definition dot (a b : list Q) : Q :=
  Qsum (map (fun p => fst p * snd p)%Q (combine a b)).

Definition ols_line (X y : list Q) : option (Q * Q) :=
  let n := inject_Z (Z.of_nat (List.length X)) in
  let sx := Qsum X in
  let sy := Qsum y in
  let slope := ((n * dot X y - sx * sy) / (n * dot X X - sx * sx))%Q in
  Some (slope, ((sy - slope * sx) / n)%Q).

(** A square root to six decimals, exact at 0. *)
Definition sqrt_fixed (q : Q) : Q :=
  Z.sqrt (Qnum q * Zpos (Qden q) * 10 ^ 12) # (Qden q * 10 ^ 6).

(** Sample rows, with the year column filled in as [load_data] does. *)
Definition observation_row (code gen : string) (d : Timestamp) (v : Q)
  : Row :=
  load_data_year
    (mkRow None (Some "observation") None (Some code) None (Some gen)
           (Some v) (Some d) None None None LagMissing None).

Definition event_row (id : string) (d : option Timestamp) : Row :=
  load_data_year
    (mkRow (Some id) (Some "event") None None (Some "launch") None None d
           None None None LagMissing None).

Definition link_row (id parent target magnitude direction : string)
    (lag : LagCell) (d : option Timestamp) : Row :=
  load_data_year
    (mkRow (Some id) (Some "impact_link") (Some parent) None None None None
           d (Some target) (Some magnitude) (Some direction) lag None).

Definition jan (y : Z) : Timestamp := mkTimestamp y 1 1 0.

(** Two observations, listed latest first: 2020 -> 10 and 2021 -> 15. *)
Definition two_points : DataFrame :=
  [observation_row "ACC_OWNERSHIP" "all" (jan 2021) 15;
   observation_row "ACC_OWNERSHIP" "all" (jan 2020) 10].

Definition one_point : DataFrame :=
  [observation_row "ACC_OWNERSHIP" "all" (jan 2020) 10].

(** Years 2018-2022 with values 10, 20, 30, 40, 50. *)
Definition linear_series : DataFrame :=
  [observation_row "ACC_OWNERSHIP" "all" (jan 2018) 10;
   observation_row "ACC_OWNERSHIP" "all" (jan 2019) 20;
   observation_row "ACC_OWNERSHIP" "all" (jan 2020) 30;
   observation_row "ACC_OWNERSHIP" "all" (jan 2021) 40;
   observation_row "ACC_OWNERSHIP" "all" (jan 2022) 50].

(** An event dated 2020-01 and its link (lag 12, high, increase, target X);
    the link row carries no date of its own. *)
Definition event_dated_link_undated : DataFrame :=
  [event_row "E1" (Some (jan 2020));
   link_row "L1" "E1" "X" "high" "increase" (LagNumber 12) None].

(** The same link carrying the date 2020-01 itself; its parent "E9" is not
    in the table, whose only event is undated. *)
Definition link_dated_parent_missing : DataFrame :=
  [event_row "E1" None;
   link_row "L1" "E9" "X" "high" "increase" (LagNumber 12)
            (Some (jan 2020))].

(** Value-wise equality of two effect series. *)
Definition series_equiv (a b : Series) : Prop :=
  Forall2 (fun p q => fst p = fst q /\ (snd p == snd q)%Q) a b.

(** Value-wise equality of two cells and of two columns. *)
Definition cell_equiv (a b : cell) : Prop :=
  match a, b with
  | Int x, Int y => x = y
  | Float x, Float y => (x == y)%Q
  | NaN, NaN => True
  | _, _ => False
  end.

Definition col_equiv (a b : list cell) : Prop := Forall2 cell_equiv a b.

(** Chronological order of two rows. *)
Definition date_le (a b : Row) : Prop :=
  date_leb (observation_date a) (observation_date b) = true.

(* ------------------------------------------------------------------ *)
(** ** The remaining readers of the table *)

(** Python's truth value of the [gender] argument: [None] and the empty
    string switch the gender filter off. *)
Definition truthy (g : option string) : bool :=
  match g with
  | Some s => negb (String.eqb s "")
  | None => false
  end.

Definition observation_of_code (code : string) (r : Row) : bool :=
  col_eqb (indicator_code r) code && col_eqb (record_type r) "observation".

(** The rows [latest_value] keeps, before [dropna] and the sort. *)
Definition latest_candidates (df : DataFrame) (code : string)
    (g : option string) : DataFrame :=
  let subset := filter (observation_of_code code) df in
  match g with
  | Some s => if truthy g then filter (fun r => col_eqb (gender r) s) subset
              else subset
  | None => subset
  end.

Definition latest_subset (df : DataFrame) (code : string) (g : option string)
  : DataFrame :=
  sort_values_observation_date
    (filter has_value_and_date (latest_candidates df code g)).

(** [latest_value]: [None] on an empty subset, else the value of the last
    row. *)
Definition latest_value (df : DataFrame) (code : string) (g : option string)
  : option Q :=
  match rev (latest_subset df code g) with
  | [] => None
  | r :: _ => value_numeric r
  end.

(** [obs = data[data["record_type"] == "observation"]]. *)
Definition observations (data : DataFrame) : DataFrame :=
  filter (fun r => col_eqb (record_type r) "observation") data.

(** [column.isin(names)]. *)
Definition isin (c : option string) (names : list string) : bool :=
  match c with
  | Some s => existsb (String.eqb s) names
  | None => false
  end.

(** Lines 175-182 of the Forecasts tab: the series fitted for access and
    for usage, the latter with its label. *)
Definition access_series (obs : DataFrame) : DataFrame :=
  filter (fun r => col_eqb (indicator_code r) "ACC_OWNERSHIP"
                   && col_eqb (gender r) "all") obs.

Definition usage_series (obs : DataFrame) : DataFrame * string :=
  let usage :=
    filter (fun r => isin (indicator_code r)
                          ["USG_DIGITAL_PAYMENT"; "ACC_MM_ACCOUNT"]) obs in
  if existsb (fun r => col_eqb (indicator_code r) "USG_DIGITAL_PAYMENT") usage
  then (filter (fun r => col_eqb (indicator_code r) "USG_DIGITAL_PAYMENT")
               usage,
        "USG_DIGITAL_PAYMENT")
  else (filter (fun r => col_eqb (indicator_code r) "ACC_MM_ACCOUNT") usage,
        "ACC_MM_ACCOUNT (proxy)").

(** Lines 136-144 of the Trends tab.  [int(obs["year"].min())] and
    [int(obs["year"].max())] skip missing years; with no year at all the
    minimum is NaN and [int] raises ([None]). *)
Definition years_of (obs : DataFrame) : list Z :=
  flat_map (fun r => match year r with Some y => [y] | None => [] end) obs.

Definition year_min (obs : DataFrame) : option Z :=
  match years_of obs with
  | [] => None
  | y :: ys => Some (fold_left Z.min ys y)
  end.

Definition year_max (obs : DataFrame) : option Z :=
  match years_of obs with
  | [] => None
  | y :: ys => Some (fold_left Z.max ys y)
  end.

(** [(col >= lo) & (col <= hi)]: false on a missing year. *)
Definition year_between (lo hi : Z) (r : Row) : bool :=
  match year r with
  | Some y => (lo <=? y) && (y <=? hi)
  | None => false
  end.

Definition trend_df (obs : DataFrame) (selected : list string) (lo hi : Z)
  : DataFrame :=
  filter (year_between lo hi)
         (filter (fun r => isin (indicator_code r) selected) obs).

(** Lines 232-235 of the Inclusion Projections tab: [latest_value(...) or 0]
    and the fraction handed to the progress bar. *)
Definition or_zero (v : option Q) : Q :=
  match v with
  | Some x => if Qeq_bool x 0 then 0%Q else x
  | None => 0%Q
  end.

(** Python's [min(a, b)]: [b] only when it is strictly smaller. *)
Definition py_min (a b : Q) : Q :=
  match (b ?= a)%Q with
  | Lt => b
  | _ => a
  end.

Definition progress_fraction (data : DataFrame) : Q :=
  let target := 60%Q in
  let latest := or_zero (latest_value data "ACC_OWNERSHIP" (Some "all")) in
  py_min (latest / target)%Q 1.0%Q.

(** The two kinds of cell in the value columns of a forecast table. *)
Definition is_NaN (c : cell) : Prop := c = NaN.
Definition is_Float (c : cell) : Prop := exists q, c = Float q.

(* ------------------------------------------------------------------ *)
(** ** Library behaviour left open by the definitions above *)

(** The definitions above give each function its value on the path where
    no library call raises, and fix one order for rows of equal date.  The
    definitions below take the library for what it is: any sort by date,
    an infinite lag, a shifted date that pandas cannot hold, float64
    rounding. *)

(** [trend_growth] over [DataFrame.sort_values("observation_date")] as any
    function: pandas' default quicksort need not keep rows of equal date in
    their order. *)
Section AnySort.

Variable sort_values : DataFrame -> DataFrame.

Definition trend_subset_by (df : DataFrame) (code gen : string) : DataFrame :=
  sort_values
    (filter has_value_and_date (filter (observation_of code gen) df)).

Definition trend_growth_by (df : DataFrame) (code : string) (gen : string)
  : option Q :=
  let subset := trend_subset_by df code gen in
  if (Nat.ltb (List.length subset) 2) then None
  else match iloc_last2 subset with
       | Some (previous, latest) =>
           opt_sub (value_numeric latest) (value_numeric previous)
       | None => None
       end.

End AnySort.

(** What every sort by date does: the same rows, dates ascending. *)
Definition sorts_by_date (sort_values : DataFrame -> DataFrame) : Prop :=
  forall df,
    Permutation df (sort_values df)
    /\ StronglySorted date_le (sort_values df).

(** The float left in [lag_months_num] by line 77: finite, or an infinity
    (the text inf reads as one). *)
Inductive LagFloat : Type :=
| Finite (q : Q)
| Infinite.

(** The [lag_months] cell with its numeric reading. *)
Inductive LagRead : Type :=
| ReadNumber (x : LagFloat)
| ReadText (s : string)
| ReadMissing.

(** [pd.to_numeric(cell, errors="coerce")] then [fillna(0)]. *)
Definition lag_float (c : LagRead) : LagFloat :=
  match c with
  | ReadNumber x => x
  | ReadText _ => Finite 0
  | ReadMissing => Finite 0
  end.

Inductive exception : Type :=
| OverflowError        (* int() of an infinity *)
| OutOfBounds.         (* a date pandas cannot hold *)

Inductive outcome (A : Type) : Type :=
| Returned (a : A)
| Raised (e : exception).

Arguments Returned {A} a.
Arguments Raised {A} e.

Section Representable.

(** Whether pandas can hold the timestamp: the library's range. *)
Variable representable : Timestamp -> bool.

(** [effect_series] with its raising paths: the NaT test comes first, then
    [int(lag_months)], then the offset. *)
Definition effect_series_raising (event_date : option Timestamp)
    (effect : Q) (lag_months : LagFloat) : outcome Series :=
  match event_date with
  | None => Returned []
  | Some d =>
      match lag_months with
      | Infinite => Raised OverflowError
      | Finite q =>
          if representable (DateOffset_months d (int_of_float q))
          then Returned (effect_series (Some d) effect q)
          else Raised OutOfBounds
      end
  end.

End Representable.

(** The range of a nanosecond [Timestamp]:
    1677-09-21 00:12:43.145224193 to 2262-04-11 23:47:16.854775807. *)
Definition in_ns_range (t : Timestamp) : bool :=
  ts_leb (mkTimestamp 1677 9 21 763145224193) t
  && ts_leb t (mkTimestamp 2262 4 11 85636854775807).

(** Lines 191 and 230 in the arithmetic the code runs: float64. *)
Module Float64.
Import PrimFloat.
#[local] Set Warnings "-inexact-float".
Local Open Scope float_scope.

Definition scenario_factors (s : Scenario) : float :=
  match s with
  | pessimistic => 0.85
  | base => 1.0
  | optimistic => 1.15
  end.

Definition scenario (forecast : float) (s : Scenario) : float :=
  forecast * scenario_factors s.

Definition forecast_event (forecast effect : float) : float :=
  forecast + effect.

(** The two sides of the linearity identity. *)
Definition scaled_sum (forecast effect : float) (s : Scenario) : float :=
  scenario (forecast_event forecast effect) s.

Definition sum_scaled (forecast effect : float) (s : Scenario) : float :=
  scenario forecast s + scenario_factors s * effect.

Definition sixty : float := 60.
Definition effect_2022 : float := 0.0975.

End Float64.

(* ================================================================== *)
(** * Properties *)

(** ** Sorting by observation date *)

Lemma ts_ltb_iff (a b : Timestamp) :
  ts_ltb a b = true <->
  (ts_year a < ts_year b
   \/ (ts_year a = ts_year b
       /\ (ts_month a < ts_month b
           \/ (ts_month a = ts_month b
               /\ (ts_day a < ts_day b
                   \/ (ts_day a = ts_day b /\ ts_nanos a < ts_nanos b)))))).
Proof.
  unfold ts_ltb.
  repeat first [ rewrite orb_true_iff | rewrite andb_true_iff
               | rewrite Z.ltb_lt | rewrite Z.eqb_eq ].
  tauto.
Qed.

Lemma ts_leb_total (a b : Timestamp) : ts_leb a b = false -> ts_leb b a = true.
Proof.
  unfold ts_leb. rewrite negb_false_iff, negb_true_iff.
  intro H. apply ts_ltb_iff in H.
  apply not_true_is_false. intro H'. apply ts_ltb_iff in H'. lia.
Qed.

Lemma ts_leb_trans (a b c : Timestamp) :
  ts_leb a b = true -> ts_leb b c = true -> ts_leb a c = true.
Proof.
  unfold ts_leb. rewrite !negb_true_iff.
  intros H1 H2. apply not_true_is_false. intro H3.
  apply ts_ltb_iff in H3.
  assert (N1 : ~ ts_ltb b a = true) by (rewrite H1; discriminate).
  assert (N2 : ~ ts_ltb c b = true) by (rewrite H2; discriminate).
  rewrite ts_ltb_iff in N1, N2. lia.
Qed.

Lemma date_leb_total (a b : option Timestamp) :
  date_leb a b = false -> date_leb b a = true.
Proof.
  destruct a, b; simpl; auto using ts_leb_total; discriminate.
Qed.

Lemma date_leb_trans (a b c : option Timestamp) :
  date_leb a b = true -> date_leb b c = true -> date_leb a c = true.
Proof.
  destruct a, b, c; simpl; eauto using ts_leb_trans; discriminate.
Qed.

Lemma insert_by_date_perm (r : Row) (l : list Row) :
  Permutation (r :: l) (insert_by_date r l).
Proof.
  induction l as [| x l IH]; simpl.
  - apply Permutation_refl.
  - destruct (date_leb (observation_date x) (observation_date r)).
    + rewrite perm_swap. apply perm_skip, IH.
    + apply Permutation_refl.
Qed.

Lemma insert_by_date_sorted (r : Row) (l : list Row) :
  StronglySorted date_le l -> StronglySorted date_le (insert_by_date r l).
Proof.
  induction 1 as [| x l Hs IH Hx]; simpl.
  - repeat constructor.
  - destruct (date_leb (observation_date x) (observation_date r)) eqn:E.
    + constructor; [exact IH |].
      apply Forall_forall. intros z Hz.
      apply (Permutation_in _ (Permutation_sym (insert_by_date_perm r l))) in Hz.
      destruct Hz as [<- | Hz]; [exact E |].
      rewrite Forall_forall in Hx. now apply Hx.
    + apply date_leb_total in E.
      constructor; [now constructor |].
      constructor; [exact E |].
      apply Forall_forall. intros z Hz. rewrite Forall_forall in Hx.
      unfold date_le. eapply date_leb_trans; [exact E | now apply Hx].
Qed.

Lemma sort_values_fold (df acc : list Row) :
  StronglySorted date_le acc ->
  Permutation (acc ++ df) (fold_left (fun a r => insert_by_date r a) df acc)
  /\ StronglySorted date_le (fold_left (fun a r => insert_by_date r a) df acc).
Proof.
  revert acc. induction df as [| r df IH]; intros acc Hacc; simpl.
  - rewrite app_nil_r. split; [apply Permutation_refl | exact Hacc].
  - destruct (IH (insert_by_date r acc) (insert_by_date_sorted r acc Hacc))
      as [P S].
    split; [| exact S].
    rewrite <- P. rewrite <- insert_by_date_perm.
    apply Permutation_sym, Permutation_middle.
Qed.

Lemma sort_values_perm (df : DataFrame) :
  Permutation df (sort_values_observation_date df).
Proof.
  apply (sort_values_fold df []). constructor.
Qed.

Lemma sort_values_sorted (df : DataFrame) :
  StronglySorted date_le (sort_values_observation_date df).
Proof.
  apply (sort_values_fold df []). constructor.
Qed.

(** ** Metric extractor: the last-step change *)

Lemma col_eqb_eq (c : option string) (s : string) :
  col_eqb c s = true <-> c = Some s.
Proof.
  destruct c as [x |]; simpl.
  - rewrite String.eqb_eq. split; congruence.
  - split; discriminate.
Qed.

Lemma notna_true {A : Type} (c : option A) :
  notna c = true <-> exists v, c = Some v.
Proof.
  destruct c; simpl; split; eauto; try discriminate.
  intros [v H]; discriminate.
Qed.

(** ** Trend forecaster: too few points, empty target list *)

Lemma points_length (series_df : DataFrame) :
  List.length (points series_df)
  = List.length (filter has_year_and_value series_df).
Proof.
  unfold points.
  induction series_df as [| r df IH]; simpl; [reflexivity |].
  destruct (has_year_and_value r) eqn:E; [| exact IH].
  unfold has_year_and_value in E. apply andb_true_iff in E.
  destruct E as [Ey Ev]. simpl. unfold point_of at 1.
  destruct (year r); [| discriminate].
  destruct (value_numeric r); [| discriminate].
  simpl. now rewrite IH.
Qed.

Lemma nth_error_repeat_Some {A : Type} (a : A) (n i : nat) :
  (i < n)%nat -> nth_error (repeat a n) i = Some a.
Proof.
  revert i. induction n as [| n IH]; intros i Hi; [lia |].
  destruct i as [| i]; simpl; [reflexivity |]. apply IH. lia.
Qed.

(** C5. With fewer than two rows carrying both a year and a value, the fit
    returns (raising nothing) a table with one row per target year whose
    forecast, ci_low and ci_high are all NaN. *)
Theorem fit_linear_forecast_too_few_points
    (polyfit : list Q -> list Q -> option (Q * Q)) (sqrt : Q -> Q)
    (series_df : DataFrame) (years : list Z) :
  (List.length (filter has_year_and_value series_df) < 2)%nat ->
  exists fc,
    fit_linear_forecast polyfit sqrt series_df years = Some fc
    /\ (forall name col,
           getitem fc name = Some col -> List.length col = List.length years)
    /\ (forall i t,
           nth_error years i = Some t ->
           cell_at fc "year" i = Some (Int t)
           /\ cell_at fc "forecast" i = Some NaN
           /\ cell_at fc "ci_low" i = Some NaN
           /\ cell_at fc "ci_high" i = Some NaN).
Proof.
  intro Hlen. rewrite <- points_length in Hlen.
  apply Nat.ltb_lt in Hlen.
  unfold fit_linear_forecast. rewrite Hlen.
  eexists. split; [reflexivity |]. split.
  - intros name col. cbn [getitem].
    repeat match goal with
           | |- context [String.eqb ?n name] =>
               destruct (String.eqb n name);
               [intro H; injection H as H; subst col;
                now rewrite ?length_map, ?repeat_length |]
           end.
    discriminate.
  - intros i t Hi.
    assert (Hlt : (i < List.length years)%nat)
      by (apply nth_error_Some; congruence).
    unfold cell_at; simpl.
    rewrite nth_error_map, Hi, !nth_error_repeat_Some by exact Hlt.
    repeat split.
Qed.

Lemma fit_linear_forecast_too_few_points_witness :
  exists fc,
    fit_linear_forecast ols_line sqrt_fixed one_point [2025; 2026; 2027]
    = Some fc
    /\ cell_at fc "forecast" 2 = Some NaN.
Proof.
  destruct (fit_linear_forecast_too_few_points ols_line sqrt_fixed one_point
              [2025; 2026; 2027]) as (fc & Hfc & _ & Hrows).
  - simpl; lia.
  - exists fc. split; [exact Hfc |].
    apply (Hrows 2%nat 2027). reflexivity.
Defined.

(** C8 fails on the code: a fit over an empty target-year list returns a
    table (with no rows), both with enough history and without. *)
Lemma fit_linear_forecast_empty_years_returns :
  fit_linear_forecast ols_line sqrt_fixed linear_series [] <> None
  /\ fit_linear_forecast ols_line sqrt_fixed one_point []
     = Some [("year", []); ("forecast", []); ("ci_low", []); ("ci_high", [])].
Proof.
  split; [vm_compute; discriminate | reflexivity].
Qed.

(** C8, amended.  The fit has no check on the target-year list: with an
    empty list it returns the four columns with no rows, whenever the
    solver itself returns, and always with fewer than two points. *)
Theorem fit_linear_forecast_empty_years
    (polyfit : list Q -> list Q -> option (Q * Q)) (sqrt : Q -> Q)
    (series_df : DataFrame) :
  (List.length (points series_df) < 2)%nat
  \/ polyfit (map fst (points series_df)) (map snd (points series_df))
     <> None ->
  fit_linear_forecast polyfit sqrt series_df []
  = Some [("year", []); ("forecast", []); ("ci_low", []); ("ci_high", [])].
Proof.
  intro H. unfold fit_linear_forecast.
  destruct (Nat.ltb (List.length (points series_df)) 2) eqn:E;
    [reflexivity |].
  destruct H as [H | H]; [apply Nat.ltb_lt in H; congruence |].
  destruct (polyfit _ _) as [[slope intercept] |]; [reflexivity |].
  now contradiction H.
Qed.

Lemma fit_linear_forecast_empty_years_witness :
  fit_linear_forecast ols_line sqrt_fixed linear_series []
  = Some [("year", []); ("forecast", []); ("ci_low", []); ("ci_high", [])].
Proof.
  apply (fit_linear_forecast_empty_years ols_line sqrt_fixed linear_series).
  right. vm_compute. discriminate.
Defined.

(** ** Event-effect compositor: the scalar effect of a link *)

Lemma dict_get_not_key {V : Type} (d : list (string * V)) (k : string) :
  ~ In k (map fst d) -> dict_get d k = None.
Proof.
  induction d as [| [k' v] d IH]; simpl; intro H; [reflexivity |].
  destruct (String.eqb_spec k' k) as [E | _]; [tauto |].
  apply IH. tauto.
Qed.

Lemma map_dict_unknown (d : list (string * Q)) (c : option string) :
  (forall k, c = Some k -> ~ In k (map fst d)) -> map_dict d c = None.
Proof.
  destruct c as [k |]; simpl; intro H; [| reflexivity].
  apply dict_get_not_key. now apply H.
Qed.

(** C3. The scalar effect of a link is effect_size * sign; effect_size is
    read from {high: 0.15, medium: 0.08, low: 0.03, negligible: 0.01} and
    the sign from {increase: +1, decrease: -1, stabilize: 0, mixed: 0};
    a value outside the table, or a missing one, reads as 0, so that the
    effect is 0.  Both reads are total: nothing is raised. *)
Theorem effect_from_tables (j : Joined) :
  let magnitude := impact_magnitude (link j) in
  let direction := impact_direction (link j) in
  effect j = (effect_size j * direction_sign j)%Q
  /\ (magnitude = Some "high" -> effect_size j = 0.15%Q)
  /\ (magnitude = Some "medium" -> effect_size j = 0.08%Q)
  /\ (magnitude = Some "low" -> effect_size j = 0.03%Q)
  /\ (magnitude = Some "negligible" -> effect_size j = 0.01%Q)
  /\ ((forall k, magnitude = Some k ->
                 ~ In k ["high"; "medium"; "low"; "negligible"]) ->
      effect_size j = 0.0%Q /\ (effect j == 0)%Q)
  /\ (direction = Some "increase" -> direction_sign j = 1%Q)
  /\ (direction = Some "decrease" -> direction_sign j = (-1)%Q)
  /\ (direction = Some "stabilize" -> direction_sign j = 0%Q)
  /\ (direction = Some "mixed" -> direction_sign j = 0%Q)
  /\ ((forall k, direction = Some k ->
                 ~ In k ["increase"; "decrease"; "stabilize"; "mixed"]) ->
      direction_sign j = 0.0%Q /\ (effect j == 0)%Q).
Proof.
  intros magnitude direction.
  split; [reflexivity |].
  unfold effect, effect_size, direction_sign.
  fold magnitude direction.
  repeat split; try (intros ->; reflexivity).
  - rewrite (map_dict_unknown magnitude_map magnitude H). reflexivity.
  - rewrite (map_dict_unknown magnitude_map magnitude H). cbn [fillna].
    unfold Qeq; simpl; lia.
  - rewrite (map_dict_unknown direction_map direction H). reflexivity.
  - rewrite (map_dict_unknown direction_map direction H). cbn [fillna].
    unfold Qeq; simpl; lia.
Qed.

Lemma effect_from_tables_witness :
  let j := mkJoined (link_row "L1" "E1" "X" "huge" "increase" LagMissing None)
                    None None None in
  effect_size j = 0.0%Q /\ (effect j == 0)%Q.
Proof.
  intro j.
  destruct (effect_from_tables j) as (_ & _ & _ & _ & _ & H & _).
  apply H. intros k Hk. injection Hk as <-.
  simpl. intuition discriminate.
Defined.

(** ** Event-effect compositor: lag and ramp *)

Lemma int_of_float_trunc (x : Q) :
  ((0 <= x)%Q ->
   (inject_Z (int_of_float x) <= x)%Q /\ (x < inject_Z (int_of_float x) + 1)%Q)
  /\ ((x <= 0)%Q ->
      (x <= inject_Z (int_of_float x))%Q
      /\ (inject_Z (int_of_float x) - 1 < x)%Q).
Proof.
  destruct x as [a d]. unfold int_of_float, Qle, Qlt. cbn.
  pose proof (Z.quot_rem' a (Zpos d)) as E.
  split; intro H.
  - assert (Ha : 0 <= a) by lia.
    pose proof (Z.rem_bound_pos_pos a (Zpos d) ltac:(lia) Ha). nia.
  - assert (Ha : a <= 0) by lia.
    pose proof (Z.rem_bound_pos_neg a (Zpos d) ltac:(lia) Ha). nia.
Qed.

Lemma int_of_float_inject_Z (n : Z) : int_of_float (inject_Z n) = n.
Proof. unfold int_of_float. simpl. apply Z.quot_1_r. Qed.

Lemma effect_series_years (d : Timestamp) (e lag : Q) :
  let start := ts_year (DateOffset_months d (int_of_float lag)) in
  exists w0 w1 w2,
    effect_series (Some d) e lag
    = [(start, (e * w0)%Q); (start + 1, (e * w1)%Q); (start + 2, (e * w2)%Q)]
    /\ (w0 == 0.3)%Q /\ (w1 == 0.65)%Q /\ (w2 == 1.0)%Q.
Proof.
  intro start. unfold effect_series. fold start.
  unfold arange. replace (Z.to_nat (start + 3 - start)) with 3%nat by lia.
  cbn [seq map linspace app combine].
  change (Z.of_nat 0) with 0. change (Z.of_nat 1) with 1.
  change (Z.of_nat 2) with 2. rewrite Z.add_0_r.
  do 3 eexists. split.
  - reflexivity.
  - repeat split; vm_compute; reflexivity.
Qed.

(** ** Event-effect compositor: which date the loop reads *)

Lemma merge_left_link (links events : DataFrame) (j : Joined) :
  In j (merge_left links events) -> In (link j) links.
Proof.
  unfold merge_left. rewrite in_flat_map. intros (l & Hl & Hj).
  destruct (filter _ events) as [| e es].
  - destruct Hj as [<- | []]. exact Hl.
  - apply in_map_iff in Hj. destruct Hj as (e' & <- & _). exact Hl.
Qed.

Lemma flat_map_all_nil {A B : Type} (f : A -> list B) (l : list A) :
  (forall a, In a l -> f a = []) -> flat_map f l = [].
Proof.
  induction l as [| a l IH]; simpl; intro H; [reflexivity |].
  rewrite (H a) by now left. apply IH. intros; apply H. now right.
Qed.

(** C1 fails on the code.  The loop reads the link's own date, never the
    date of the joined event: when no link row carries a date the result
    is empty whatever the dates of the events, and so it is for the event
    dated 2020-01 with its link of lag 12, high, increase. *)
Theorem build_event_effects_reads_link_date
    (df : DataFrame) (target_code : string) :
  (forall r, In r df -> record_type r = Some "impact_link" ->
             observation_date r = None) ->
  build_event_effects df target_code = []
  /\ build_event_effects event_dated_link_undated "X" = [].
Proof.
  intro H. split; [| reflexivity].
  unfold build_event_effects.
  destruct (filter (fun r => col_eqb (record_type r) "event") df)
    as [| e events]; [reflexivity |].
  destruct (filter (fun r => col_eqb (record_type r) "impact_link") df)
    as [| l links] eqn:El; [reflexivity |].
  rewrite flat_map_all_nil; [reflexivity |].
  intros j Hj. unfold loop_rows in Hj. apply filter_In in Hj.
  destruct Hj as [Hj _]. apply merge_left_link in Hj.
  rewrite <- El in Hj. apply filter_In in Hj. destruct Hj as [Hin Ht].
  apply col_eqb_eq in Ht.
  unfold row_effects. rewrite (H _ Hin Ht). reflexivity.
Qed.

Lemma build_event_effects_reads_link_date_witness :
  build_event_effects event_dated_link_undated "X" = [].
Proof.
  apply (build_event_effects_reads_link_date event_dated_link_undated "X").
  intros r Hr Ht. simpl in Hr.
  destruct Hr as [<- | [<- | []]]; [discriminate Ht | reflexivity].
Defined.

(** C4 fails on the code.  A link whose parent event is not in the table,
    and whose only candidate event has no date, still contributes its full
    ramp, from the date of the link row itself. *)
Theorem build_event_effects_parent_missing :
  series_equiv (build_event_effects link_dated_parent_missing "X")
               [(2021, 0.045%Q); (2022, 0.0975%Q); (2023, 0.15%Q)]
  /\ merge_left
       (filter (fun r => col_eqb (record_type r) "impact_link")
               link_dated_parent_missing)
       (filter (fun r => col_eqb (record_type r) "event")
               link_dated_parent_missing)
     = [mkJoined (link_row "L1" "E9" "X" "high" "increase" (LagNumber 12)
                           (Some (jan 2020)))
                 None None None].
Proof.
  split; [| reflexivity].
  vm_compute. repeat constructor.
Qed.

(** ** Column assignment *)

Lemma getitem_setitem_same (fr : Frame) (name : string) (col : list cell) :
  getitem (setitem fr name col) name = Some col.
Proof.
  induction fr as [| [n c] fr IH]; cbn [setitem getitem].
  - now rewrite String.eqb_refl.
  - destruct (String.eqb n name) eqn:E; cbn [getitem]; now rewrite E.
Qed.

Lemma getitem_setitem_other (fr : Frame) (name other : string)
    (col : list cell) :
  other <> name -> getitem (setitem fr name col) other = getitem fr other.
Proof.
  intro H. induction fr as [| [n c] fr IH]; cbn [setitem getitem].
  - destruct (String.eqb_spec name other); [congruence | reflexivity].
  - destruct (String.eqb_spec n name) as [-> | Hn]; cbn [getitem].
    + destruct (String.eqb_spec name other); [congruence | reflexivity].
    + now rewrite IH.
Qed.

Lemma nth_error_combine_Some {A B : Type} (la : list A) (lb : list B)
    (i : nat) (a : A) (b : B) :
  nth_error la i = Some a -> nth_error lb i = Some b ->
  nth_error (combine la lb) i = Some (a, b).
Proof.
  revert lb i. induction la as [| x la IH]; intros lb i Ha Hb.
  - destruct i; discriminate.
  - destruct lb as [| y lb]; [destruct i; discriminate |].
    destruct i as [| i]; simpl in *; [congruence | now apply IH].
Qed.

(** Every table the forecaster returns has the same four columns. *)
Lemma fit_linear_forecast_columns
    (polyfit : list Q -> list Q -> option (Q * Q)) (sqrt : Q -> Q)
    (series_df : DataFrame) (years : list Z) (fc : Frame) :
  fit_linear_forecast polyfit sqrt series_df years = Some fc ->
  exists f lo hi,
    fc = [("year", map Int years); ("forecast", f); ("ci_low", lo);
          ("ci_high", hi)].
Proof.
  unfold fit_linear_forecast.
  destruct (Nat.ltb _ 2).
  - intro H; injection H as <-. now do 3 eexists.
  - destruct (polyfit _ _) as [[slope intercept] |]; [| discriminate].
    intro H; injection H as <-. now do 3 eexists.
Qed.

(** The adjustment read for a year: the entry of the series, 0 if none. *)
Lemma map_series_fillna (y : list cell) (effects : Series) (i : nat) (t : Z) :
  nth_error y i = Some (Int t) ->
  nth_error (fillna_col 0 (map_series y effects)) i
  = Some (Float (fillna 0 (series_get effects t))).
Proof.
  intro H. unfold fillna_col, map_series.
  rewrite !nth_error_map, H. cbn [option_map cell_key].
  now destruct (series_get effects t).
Qed.

(** C6. Adding the event effect writes the column forecast_event and leaves
    every other column as it was, forecast, ci_low and ci_high among them;
    the new column holds forecast plus the effect of the row's year, 0
    where the series has no entry. *)
Theorem assign_forecast_event_frame (use_events : bool) (fc fc' : Frame)
    (effects : Series) :
  assign_forecast_event use_events fc effects = Some fc' ->
  getitem fc' "forecast" = getitem fc "forecast"
  /\ getitem fc' "ci_low" = getitem fc "ci_low"
  /\ getitem fc' "ci_high" = getitem fc "ci_high"
  /\ (forall name, name <> "forecast_event" ->
                   getitem fc' name = getitem fc name)
  /\ (use_events = false ->
      getitem fc' "forecast_event" = getitem fc "forecast")
  /\ (use_events = true ->
      forall i t,
        cell_at fc "year" i = Some (Int t) ->
        (forall v, cell_at fc "forecast" i = Some (Float v) ->
                   cell_at fc' "forecast_event" i
                   = Some (Float (v + fillna 0 (series_get effects t))))
        /\ (cell_at fc "forecast" i = Some NaN ->
            cell_at fc' "forecast_event" i = Some NaN)).
Proof.
  intro H.
  assert (Hframe : forall name, name <> "forecast_event" ->
                                getitem fc' name = getitem fc name).
  { intros name Hn. unfold assign_forecast_event in H.
    destruct use_events.
    - destruct (getitem fc "forecast"); [| discriminate].
      destruct (getitem fc "year"); [| discriminate].
      injection H as <-. now apply getitem_setitem_other.
    - destruct (getitem fc "forecast"); [| discriminate].
      injection H as <-. now apply getitem_setitem_other. }
  do 3 (split; [apply Hframe; discriminate |]).
  split; [exact Hframe |]. split.
  - intros ->. unfold assign_forecast_event in H.
    destruct (getitem fc "forecast"); [| discriminate].
    injection H as <-. apply getitem_setitem_same.
  - intros -> i t Hy. unfold assign_forecast_event in H.
    unfold cell_at in *.
    destruct (getitem fc "forecast") as [f |]; [| discriminate].
    destruct (getitem fc "year") as [y |]; [| discriminate].
    injection H as <-. rewrite getitem_setitem_same.
    pose proof (map_series_fillna y effects i t Hy) as Hadj.
    unfold add_cols. split.
    + intros v Hv. rewrite nth_error_map.
      now rewrite (nth_error_combine_Some _ _ _ _ _ Hv Hadj).
    + intros Hv. rewrite nth_error_map.
      now rewrite (nth_error_combine_Some _ _ _ _ _ Hv Hadj).
Qed.

Lemma assign_forecast_event_frame_witness :
  let fc := [("year", [Int 2025; Int 2026]);
             ("forecast", [Float 50; Float 52]);
             ("ci_low", [Float 48; Float 50]);
             ("ci_high", [Float 52; Float 54])] in
  let effects := [(2025, 0.045%Q)] in
  exists fc',
    assign_forecast_event true fc effects = Some fc'
    /\ getitem fc' "forecast" = getitem fc "forecast"
    /\ getitem fc' "ci_low" = getitem fc "ci_low"
    /\ getitem fc' "ci_high" = getitem fc "ci_high".
Proof.
  intros fc effects. eexists. split; [reflexivity |].
  destruct (assign_forecast_event_frame true fc _ effects eq_refl)
    as (H1 & H2 & H3 & _).
  exact (conj H1 (conj H2 H3)).
Defined.

(** Both assignments succeed on every table the forecaster returns. *)
Lemma assign_on_forecast_table
    (polyfit : list Q -> list Q -> option (Q * Q)) (sqrt : Q -> Q)
    (series_df : DataFrame) (years : list Z) (fc : Frame)
    (use_events : bool) (effects : Series) (s : Scenario) :
  fit_linear_forecast polyfit sqrt series_df years = Some fc ->
  (exists fc', assign_forecast_event use_events fc effects = Some fc')
  /\ (exists fc', assign_scenario fc s = Some fc').
Proof.
  intro H. apply fit_linear_forecast_columns in H.
  destruct H as (f & lo & hi & ->).
  split; [destruct use_events |]; eexists; reflexivity.
Qed.

(** ** Event-effect compositor: links of other indicators *)

(* ================================================================== *)
(** * Further properties of the code *)

(** ** Metric extractor: latest value, and the order of the rows *)

Lemma ts_leb_refl (a : Timestamp) : ts_leb a a = true.
Proof.
  unfold ts_leb. apply negb_true_iff, not_true_is_false.
  rewrite ts_ltb_iff. lia.
Qed.

Lemma ts_leb_antisym (a b : Timestamp) :
  ts_leb a b = true -> ts_leb b a = true -> a = b.
Proof.
  unfold ts_leb. rewrite !negb_true_iff. intros H1 H2.
  assert (N1 : ~ ts_ltb b a = true) by (rewrite H1; discriminate).
  assert (N2 : ~ ts_ltb a b = true) by (rewrite H2; discriminate).
  rewrite ts_ltb_iff in N1, N2.
  destruct a as [ya ma da na], b as [yb mb db nb]. cbn in N1, N2.
  f_equal; lia.
Qed.

Lemma date_leb_refl (a : option Timestamp) : date_leb a a = true.
Proof. destruct a; simpl; auto using ts_leb_refl. Qed.

Lemma date_leb_antisym (a b : option Timestamp) :
  date_leb a b = true -> date_leb b a = true -> a = b.
Proof.
  destruct a, b; simpl; try discriminate; try reflexivity.
  intros H1 H2. f_equal. now apply ts_leb_antisym.
Qed.

Lemma filter_twice {A : Type} (f g : A -> bool) (l : list A) :
  filter f (filter g l) = filter (fun x => g x && f x) l.
Proof.
  induction l as [| a l IH]; simpl; [reflexivity |].
  destruct (g a); simpl; [destruct (f a) |]; now rewrite IH.
Qed.

Lemma perm_filter {A : Type} (f : A -> bool) (l l' : list A) :
  Permutation l l' -> Permutation (filter f l) (filter f l').
Proof.
  induction 1 as [| x l l' _ IH | x y l | l l' l'' _ IH1 _ IH2]; simpl.
  - constructor.
  - destruct (f x); [now constructor | exact IH].
  - destruct (f x), (f y); try apply Permutation_refl. apply perm_swap.
  - now transitivity (filter f l').
Qed.

Lemma sorted_last_max {A : Type} (R : A -> A -> Prop) (l : list A) (x : A) :
  StronglySorted R (l ++ [x]) -> Forall (fun y => R y x) l.
Proof.
  induction l as [| a l IH]; simpl; intro H; [constructor |].
  inversion H as [| ? ? Hs Hall]; subst. constructor.
  - rewrite Forall_forall in Hall. apply Hall, in_or_app. right. now left.
  - now apply IH.
Qed.

(** Two date-sorted arrangements of the same rows coincide when no two of
    the rows share a date. *)
Lemma sorted_by_date_unique (l1 l2 : list Row) :
  Permutation l1 l2 ->
  StronglySorted date_le l1 -> StronglySorted date_le l2 ->
  NoDup (map observation_date l1) ->
  l1 = l2.
Proof.
  revert l2. induction l1 as [| a l1 IH]; intros l2 P S1 S2 N.
  - apply Permutation_nil in P. now subst.
  - destruct l2 as [| b l2];
      [apply Permutation_sym, Permutation_nil in P; discriminate |].
    inversion S1 as [| ? ? S1' A1]; subst.
    inversion S2 as [| ? ? S2' A2]; subst.
    inversion N as [| ? ? Na N']; subst.
    rewrite Forall_forall in A1, A2.
    assert (E : a = b).
    { assert (Ha : In a (b :: l2))
        by (apply (Permutation_in _ P); now left).
      assert (Hb : In b (a :: l1))
        by (apply (Permutation_in _ (Permutation_sym P)); now left).
      destruct Ha as [Ha | Ha]; [now symmetry |].
      destruct Hb as [Hb | Hb]; [exact Hb |].
      exfalso. apply Na.
      rewrite (date_leb_antisym _ _ (A1 b Hb) (A2 a Ha)).
      now apply in_map. }
    subst b. f_equal. apply IH; auto.
    now apply Permutation_cons_inv in P.
Qed.

Lemma latest_candidates_In (df : DataFrame) (code : string)
    (g : option string) (r : Row) :
  In r (latest_candidates df code g) <->
  In r df
  /\ indicator_code r = Some code
  /\ record_type r = Some "observation"
  /\ (truthy g = true -> gender r = g).
Proof.
  unfold latest_candidates.
  assert (Hbase : In r (filter (observation_of_code code) df) <->
                  In r df /\ indicator_code r = Some code
                  /\ record_type r = Some "observation").
  { rewrite filter_In. unfold observation_of_code.
    rewrite andb_true_iff, !col_eqb_eq. tauto. }
  destruct g as [s |]; [destruct (truthy (Some s)) eqn:T |].
  - rewrite filter_In, Hbase, col_eqb_eq. tauto.
  - rewrite Hbase. intuition discriminate.
  - rewrite Hbase. cbn. intuition discriminate.
Qed.

(** X1. [latest_value] is None exactly when no observation of the indicator
    (and gender, when one is given) carries both a value and a date;
    otherwise it is the value of such a row whose date no other such row
    exceeds.  An empty or absent gender keeps the rows of every gender. *)
Theorem latest_value_is_latest (df : DataFrame) (code : string)
    (g : option string) :
  let kept := filter has_value_and_date (latest_candidates df code g) in
  (forall r, In r kept <->
             In r df
             /\ indicator_code r = Some code
             /\ record_type r = Some "observation"
             /\ (truthy g = true -> gender r = g)
             /\ (exists v, value_numeric r = Some v)
             /\ (exists d, observation_date r = Some d))
  /\ (latest_value df code g = None <-> kept = [])
  /\ (forall v, latest_value df code g = Some v ->
                exists r, In r kept /\ value_numeric r = Some v
                          /\ forall r', In r' kept -> date_le r' r).
Proof.
  intro kept.
  assert (P : Permutation kept (latest_subset df code g))
    by apply sort_values_perm.
  assert (S : StronglySorted date_le (latest_subset df code g))
    by apply sort_values_sorted.
  assert (Hin : forall r, In r kept ->
                          exists v, value_numeric r = Some v).
  { intros r Hr. apply filter_In in Hr. destruct Hr as [_ Hr].
    unfold has_value_and_date in Hr. apply andb_true_iff in Hr.
    now apply notna_true. }
  split; [| split].
  - intro r. unfold kept. rewrite filter_In, latest_candidates_In.
    unfold has_value_and_date. rewrite andb_true_iff, !notna_true. tauto.
  - unfold latest_value.
    destruct (rev (latest_subset df code g)) as [| r rest] eqn:E.
    + split; [intros _ | reflexivity].
      apply (f_equal (@rev Row)) in E. rewrite rev_involutive in E.
      rewrite E in P. now apply Permutation_nil, Permutation_sym.
    + assert (Hr : In r kept).
      { apply (Permutation_in _ (Permutation_sym P)), in_rev.
        rewrite E. now left. }
      destruct (Hin r Hr) as [v Hv]. rewrite Hv. split; [discriminate |].
      intro K. rewrite K in Hr. destruct Hr.
  - intros v Hv. unfold latest_value in Hv.
    destruct (rev (latest_subset df code g)) as [| r rest] eqn:E;
      [discriminate |].
    apply (f_equal (@rev Row)) in E. rewrite rev_involutive in E.
    cbn [rev] in E. rewrite E in P, S.
    exists r. split; [| split; [exact Hv |]].
    + apply (Permutation_in _ (Permutation_sym P)), in_or_app.
      right. now left.
    + intros r' Hr'. apply (Permutation_in _ P) in Hr'.
      apply in_app_or in Hr'. destruct Hr' as [Hr' | [<- | []]].
      * apply sorted_last_max in S. rewrite Forall_forall in S.
        now apply S.
      * apply date_leb_refl.
Qed.

Lemma latest_value_is_latest_witness :
  latest_value two_points "ACC_OWNERSHIP" (Some "all") = Some 15%Q
  /\ exists r,
       In r (filter has_value_and_date
               (latest_candidates two_points "ACC_OWNERSHIP" (Some "all")))
       /\ value_numeric r = Some 15%Q.
Proof.
  split; [reflexivity |].
  destruct (latest_value_is_latest two_points "ACC_OWNERSHIP" (Some "all"))
    as (_ & _ & H).
  destruct (H 15%Q eq_refl) as (r & Hr & Hv & _).
  exists r. now split.
Defined.

Lemma trend_subset_latest_subset (df : DataFrame) (code gen : string) :
  gen <> "" -> trend_subset df code gen = latest_subset df code (Some gen).
Proof.
  intro Hg. unfold trend_subset, latest_subset, latest_candidates, truthy.
  destruct (String.eqb_spec gen "") as [E | _]; [contradiction |].
  cbn [negb]. rewrite (filter_twice _ (observation_of_code code)).
  f_equal. f_equal. apply filter_ext. intro r.
  unfold observation_of, observation_of_code.
  destruct (col_eqb (indicator_code r) code), (col_eqb (gender r) gen),
    (col_eqb (record_type r) "observation"); reflexivity.
Qed.

(** X2. For a non-empty gender, [trend_growth] and [latest_value] read the
    same ordered rows: a last-step change d is latest - previous where
    latest is the very value [latest_value] returns, and when
    [latest_value] finds nothing there is no change either. *)
Theorem trend_growth_extends_latest_value (df : DataFrame)
    (code gen : string) :
  gen <> "" ->
  (latest_value df code (Some gen) = None -> trend_growth df code gen = None)
  /\ (forall d,
         trend_growth df code gen = Some d ->
         exists init rp rl previous latest,
           latest_subset df code (Some gen) = init ++ [rp; rl]
           /\ value_numeric rp = Some previous
           /\ value_numeric rl = Some latest
           /\ date_le rp rl
           /\ latest_value df code (Some gen) = Some latest
           /\ d = (latest - previous)%Q).
Proof.
  intro Hg. pose proof (trend_subset_latest_subset df code gen Hg) as E.
  unfold trend_growth, latest_value. rewrite E.
  pose proof (sort_values_sorted
                (filter has_value_and_date
                   (latest_candidates df code (Some gen)))) as S.
  fold (latest_subset df code (Some gen)) in S.
  destruct (rev (latest_subset df code (Some gen))) as [| rl rest] eqn:R.
  - apply (f_equal (@rev Row)) in R. rewrite rev_involutive in R.
    rewrite R. cbn. split; [reflexivity | discriminate].
  - apply (f_equal (@rev Row)) in R. rewrite rev_involutive in R.
    cbn [rev] in R. rewrite R in *.
    split.
    + intro Hnone. unfold iloc_last2. rewrite rev_app_distr. cbn [rev app].
      rewrite rev_involutive.
      destruct (Nat.ltb _ 2); [reflexivity |].
      destruct rest as [| rp rest']; [reflexivity |].
      rewrite Hnone. reflexivity.
    + intros d Hd.
      destruct (Nat.ltb (List.length (rev rest ++ [rl])) 2); [discriminate |].
      unfold iloc_last2 in Hd. rewrite rev_app_distr in Hd.
      cbn [rev app] in Hd. rewrite rev_involutive in Hd.
      destruct rest as [| rp rest']; [discriminate |].
      destruct (value_numeric rl) as [latest |] eqn:Vl; [| discriminate].
      destruct (value_numeric rp) as [previous |] eqn:Vp; [| discriminate].
      injection Hd as <-.
      exists (rev rest'), rp, rl, previous, latest.
      cbn [rev] in *. rewrite <- app_assoc in *. cbn [app] in *.
      repeat split; auto.
      change [rp; rl] with ([rp] ++ [rl]) in S. rewrite app_assoc in S.
      apply sorted_last_max in S.
      rewrite Forall_forall in S. apply S, in_or_app. right. now left.
Qed.

Lemma trend_growth_extends_latest_value_witness :
  "all" <> ""
  /\ exists latest,
       latest_value two_points "ACC_OWNERSHIP" (Some "all") = Some latest
       /\ exists previous, 5%Q = (latest - previous)%Q.
Proof.
  assert (Hg : "all" <> "") by discriminate.
  split; [exact Hg |].
  destruct (trend_growth_extends_latest_value two_points "ACC_OWNERSHIP"
              "all" Hg) as [_ H].
  destruct (H 5%Q eq_refl) as (_ & _ & _ & previous & latest & _ & _ & _ & _
                               & Hl & Hd).
  exists latest. split; [exact Hl |]. now exists previous.
Defined.

(** X3. The order of the rows in the table does not matter to either
    metric, provided the rows that qualify carry pairwise different
    dates. *)
Theorem metrics_ignore_row_order (df df' : DataFrame) (code : string) :
  Permutation df df' ->
  (forall gen,
      NoDup (map observation_date
                 (filter has_value_and_date
                         (filter (observation_of code gen) df))) ->
      trend_growth df' code gen = trend_growth df code gen)
  /\ (forall g,
         NoDup (map observation_date
                    (filter has_value_and_date
                            (latest_candidates df code g))) ->
         latest_value df' code g = latest_value df code g).
Proof.
  intro P. split.
  - intros gen N.
    assert (E : trend_subset df' code gen = trend_subset df code gen).
    { symmetry. apply sorted_by_date_unique.
      - unfold trend_subset.
        rewrite <- !sort_values_perm. now do 2 apply perm_filter.
      - apply sort_values_sorted.
      - apply sort_values_sorted.
      - unfold trend_subset.
        eapply Permutation_NoDup; [| exact N].
        apply Permutation_map, sort_values_perm. }
    unfold trend_growth. now rewrite E.
  - intros g N.
    assert (Pc : Permutation (latest_candidates df code g)
                             (latest_candidates df' code g)).
    { unfold latest_candidates.
      destruct g as [s |]; [destruct (truthy (Some s)) |];
        repeat apply perm_filter; exact P. }
    assert (E : latest_subset df' code g = latest_subset df code g).
    { symmetry. apply sorted_by_date_unique.
      - unfold latest_subset.
        rewrite <- !sort_values_perm. now apply perm_filter.
      - apply sort_values_sorted.
      - apply sort_values_sorted.
      - unfold latest_subset.
        eapply Permutation_NoDup; [| exact N].
        apply Permutation_map, sort_values_perm. }
    unfold latest_value. now rewrite E.
Qed.

Lemma metrics_ignore_row_order_witness :
  trend_growth (rev two_points) "ACC_OWNERSHIP" "all"
  = trend_growth two_points "ACC_OWNERSHIP" "all".
Proof.
  destruct (metrics_ignore_row_order two_points (rev two_points)
              "ACC_OWNERSHIP" (Permutation_rev two_points)) as [H _].
  apply H. cbn.
  repeat constructor; simpl; intuition discriminate.
Defined.

(** ** Trend forecaster: failure, shape and band *)

Lemma fit_linear_forecast_rows
    (polyfit : list Q -> list Q -> option (Q * Q)) (sqrt : Q -> Q)
    (series_df : DataFrame) (years : list Z) (slope intercept : Q) :
  let pts := points series_df in
  (2 <= List.length pts)%nat ->
  polyfit (map fst pts) (map snd pts) = Some (slope, intercept) ->
  let sigma := sigma_of sqrt (map (residual slope intercept) pts) in
  let preds := map (fun t => intercept + slope * inject_Z t)%Q years in
  fit_linear_forecast polyfit sqrt series_df years
  = Some [("year", map Int years);
          ("forecast", map Float preds);
          ("ci_low", map Float (map (fun p => p - 1.96 * sigma)%Q preds));
          ("ci_high", map Float (map (fun p => p + 1.96 * sigma)%Q preds))].
Proof.
  intros pts Hlen Hfit sigma preds. unfold fit_linear_forecast. fold pts.
  replace (Nat.ltb (List.length pts) 2) with false
    by (symmetry; now apply Nat.ltb_ge).
  now rewrite Hfit.
Qed.

(** X5. Every table the fit returns has one row per target year, in the
    order given, in each of its four columns; and forecast, ci_low and
    ci_high are either NaN in every row (fewer than two points) or a number
    in every row: the table never mixes the two. *)
Theorem fit_linear_forecast_shape
    (polyfit : list Q -> list Q -> option (Q * Q)) (sqrt : Q -> Q)
    (series_df : DataFrame) (years : list Z) (fc : Frame) :
  fit_linear_forecast polyfit sqrt series_df years = Some fc ->
  exists f lo hi,
    fc = [("year", map Int years); ("forecast", f); ("ci_low", lo);
          ("ci_high", hi)]
    /\ List.length f = List.length years
    /\ List.length lo = List.length years
    /\ List.length hi = List.length years
    /\ (((List.length (points series_df) < 2)%nat
         /\ Forall is_NaN f /\ Forall is_NaN lo /\ Forall is_NaN hi)
        \/ ((2 <= List.length (points series_df))%nat
            /\ Forall is_Float f /\ Forall is_Float lo
            /\ Forall is_Float hi)).
Proof.
  unfold fit_linear_forecast.
  destruct (Nat.ltb (List.length (points series_df)) 2) eqn:E.
  - intro H; injection H as <-. apply Nat.ltb_lt in E.
    do 3 eexists. split; [reflexivity |].
    rewrite !repeat_length. repeat split.
    left. split; [exact E |].
    repeat split; apply Forall_forall; intros c Hc;
      apply repeat_spec in Hc; exact Hc.
  - destruct (polyfit _ _) as [[slope intercept] |]; [| discriminate].
    intro H; injection H as <-. apply Nat.ltb_ge in E.
    do 3 eexists. split; [reflexivity |].
    rewrite !length_map. repeat split.
    right. split; [exact E |].
    repeat split; apply Forall_forall; intros c Hc;
      apply in_map_iff in Hc; destruct Hc as (q & <- & _); now exists q.
Qed.

Lemma fit_linear_forecast_shape_witness :
  exists f lo hi,
    fit_linear_forecast ols_line sqrt_fixed linear_series [2025; 2026; 2027]
    = Some [("year", [Int 2025; Int 2026; Int 2027]); ("forecast", f);
            ("ci_low", lo); ("ci_high", hi)]
    /\ List.length f = 3%nat /\ Forall is_Float f.
Proof.
  destruct (fit_linear_forecast ols_line sqrt_fixed linear_series
              [2025; 2026; 2027]) as [fc |] eqn:E;
    [| vm_compute in E; discriminate].
  destruct (fit_linear_forecast_shape _ _ _ _ _ E)
    as (f & lo & hi & -> & Hf & _ & _ & [[Hlt _] | (_ & Hfl & _)]).
  - vm_compute in Hlt. lia.
  - exists f, lo, hi. repeat split; assumption.
Defined.

Lemma sigma_of_nonneg (sqrt : Q -> Q) (l : list Q) :
  (forall q, 0 <= sqrt q)%Q -> (0 <= sigma_of sqrt l)%Q.
Proof.
  intro H. unfold sigma_of, std_ddof1.
  destruct (Nat.ltb 1 (List.length l)); [apply H | apply Qle_refl].
Qed.


Lemma sqrt_fixed_nonneg (q : Q) : (0 <= sqrt_fixed q)%Q.
Proof.
  unfold sqrt_fixed, Qle. cbn [Qnum Qden].
  pose proof (Z.sqrt_nonneg (Qnum q * Z.pos (Qden q) * 10 ^ 12)). lia.
Qed.


Lemma points_app (a b : DataFrame) : points (a ++ b) = points a ++ points b.
Proof. unfold points. now rewrite filter_app, flat_map_app. Qed.

(** X7. A row without a year or without a value never influences the fit,
    wherever it stands in the series. *)
Theorem fit_linear_forecast_skips_incomplete_rows
    (polyfit : list Q -> list Q -> option (Q * Q)) (sqrt : Q -> Q)
    (before after : DataFrame) (r : Row) (years : list Z) :
  year r = None \/ value_numeric r = None ->
  fit_linear_forecast polyfit sqrt (before ++ r :: after) years
  = fit_linear_forecast polyfit sqrt (before ++ after) years.
Proof.
  intro H.
  assert (E : points (before ++ r :: after) = points (before ++ after)).
  { rewrite !points_app. f_equal. unfold points. cbn [filter].
    replace (has_year_and_value r) with false; [reflexivity |].
    unfold has_year_and_value.
    destruct H as [-> | ->]; [reflexivity |].
    now destruct (year r). }
  unfold fit_linear_forecast. now rewrite E.
Qed.

Lemma fit_linear_forecast_skips_incomplete_rows_witness :
  let undated :=
    mkRow None (Some "observation") None (Some "ACC_OWNERSHIP") None
          (Some "all") (Some 99%Q) None None None None LagMissing None in
  fit_linear_forecast ols_line sqrt_fixed (one_point ++ undated :: one_point)
                      [2025]
  = fit_linear_forecast ols_line sqrt_fixed (one_point ++ one_point) [2025].
Proof.
  intro undated.
  apply (fit_linear_forecast_skips_incomplete_rows ols_line sqrt_fixed
           one_point one_point undated [2025]).
  left. reflexivity.
Defined.

(** ** Event-effect compositor: size and shape of a contribution *)

Lemma effect_size_cases (j : Joined) :
  In (effect_size j) [0.15; 0.08; 0.03; 0.01; 0.0]%Q.
Proof.
  unfold effect_size, map_dict, magnitude_map.
  destruct (impact_magnitude (link j)) as [m |]; cbn [dict_get fillna].
  - repeat match goal with
           | |- context [String.eqb ?k m] => destruct (String.eqb k m)
           end; cbn [fillna In]; auto 10.
  - cbn [In]. auto 10.
Qed.

Lemma direction_sign_cases (j : Joined) :
  In (direction_sign j) [1; -1; 0; 0.0]%Q.
Proof.
  unfold direction_sign, map_dict, direction_map.
  destruct (impact_direction (link j)) as [m |]; cbn [dict_get fillna].
  - repeat match goal with
           | |- context [String.eqb ?k m] => destruct (String.eqb k m)
           end; cbn [fillna In]; auto 10.
  - cbn [In]. auto 10.
Qed.

Lemma effect_bounds (j : Joined) : (-0.15 <= effect j <= 0.15)%Q.
Proof.
  unfold effect.
  pose proof (effect_size_cases j) as Hs.
  pose proof (direction_sign_cases j) as Hd.
  cbn [In] in Hs, Hd.
  repeat match goal with
         | H : _ \/ _ |- _ => destruct H as [H | H]
         | H : False |- _ => destruct H
         end;
    rewrite <- Hs, <- Hd; split; unfold Qle; simpl; lia.
Qed.

(** X9. The effect of a link lies between -0.15 and 0.15, and so does every
    yearly contribution it makes; a link marked increase never contributes
    a negative amount, and one marked decrease never a positive one. *)
Theorem effect_is_bounded (j : Joined) :
  (-0.15 <= effect j <= 0.15)%Q
  /\ (forall y v, In (y, v) (row_effects j) -> (-0.15 <= v <= 0.15)%Q)
  /\ (impact_direction (link j) = Some "increase" ->
      forall y v, In (y, v) (row_effects j) -> (0 <= v)%Q)
  /\ (impact_direction (link j) = Some "decrease" ->
      forall y v, In (y, v) (row_effects j) -> (v <= 0)%Q).
Proof.
  pose proof (effect_bounds j) as Hb.
  assert (Hramp : forall y v, In (y, v) (row_effects j) ->
                              exists w, (v == effect j * w)%Q
                                        /\ (0.3 <= w <= 1)%Q).
  { intros y v Hin. unfold row_effects in Hin.
    destruct (observation_date (link j)) as [d |]; [| destruct Hin].
    destruct (effect_series_years d (effect j) (lag_months_num j))
      as (w0 & w1 & w2 & E & H0 & H1 & H2).
    rewrite E in Hin. cbn [In] in Hin.
    destruct Hin as [Hin | [Hin | [Hin | []]]]; injection Hin as _ <-;
      eexists; (split; [reflexivity |]); lra. }
  assert (Hpos : (0 <= effect_size j)%Q).
  { pose proof (effect_size_cases j) as Hs. cbn [In] in Hs.
    repeat match goal with
           | H : _ \/ _ |- _ => destruct H as [H | H]
           | H : False |- _ => destruct H
           end; rewrite <- Hs; unfold Qle; simpl; lia. }
  split; [exact Hb |]. split; [| split].
  - intros y v Hin. destruct (Hramp y v Hin) as (w & -> & Hw). nra.
  - intros Hdir y v Hin. destruct (Hramp y v Hin) as (w & -> & Hw).
    assert (E : (effect j == effect_size j)%Q).
    { unfold effect, direction_sign. rewrite Hdir. cbn. ring. }
    rewrite E. nra.
  - intros Hdir y v Hin. destruct (Hramp y v Hin) as (w & -> & Hw).
    assert (E : (effect j == - effect_size j)%Q).
    { unfold effect, direction_sign. rewrite Hdir. cbn. ring. }
    rewrite E. nra.
Qed.

Lemma effect_is_bounded_witness :
  exists y v,
    In (y, v)
       (row_effects
          (mkJoined
             (link_row "L1" "E1" "X" "high" "decrease" (LagNumber 0)
                       (Some (jan 2020)))
             None None None))
    /\ (v <= 0)%Q.
Proof.
  destruct (effect_is_bounded
              (mkJoined
                 (link_row "L1" "E1" "X" "high" "decrease" (LagNumber 0)
                           (Some (jan 2020)))
                 None None None)) as (_ & _ & _ & H).
  destruct (row_effects _) as [| [y v] rest] eqn:E;
    [vm_compute in E; discriminate |].
  exists y, v. split; [now left |].
  apply (H eq_refl y v). now left.
Defined.

(** ** Event-effect compositor: the aggregated series *)

Lemma insert_key_In (k x : Z) (l : list Z) :
  In x (insert_key k l) <-> x = k \/ In x l.
Proof.
  induction l as [| a l IH]; cbn [insert_key In].
  - intuition.
  - destruct (Z.ltb_spec k a); [cbn [In]; intuition |].
    destruct (Z.eqb_spec k a) as [-> | Hne]; cbn [In]; [intuition |].
    rewrite IH. intuition.
Qed.

Lemma insert_key_sorted (k : Z) (l : list Z) :
  StronglySorted Z.lt l -> StronglySorted Z.lt (insert_key k l).
Proof.
  induction 1 as [| a l Hs IH Ha]; cbn [insert_key].
  - repeat constructor.
  - destruct (Z.ltb_spec k a) as [Hlt | Hge].
    + constructor; [now constructor |].
      constructor; [exact Hlt |].
      eapply Forall_impl; [| exact Ha]. intros; lia.
    + destruct (Z.eqb_spec k a) as [-> | Hne]; [now constructor |].
      constructor; [exact IH |].
      apply Forall_forall. intros x Hx. apply insert_key_In in Hx.
      destruct Hx as [-> | Hx]; [lia |].
      rewrite Forall_forall in Ha. now apply Ha.
Qed.

Lemma sorted_keys_fold (ks acc : list Z) :
  StronglySorted Z.lt acc ->
  StronglySorted Z.lt (fold_left (fun a k => insert_key k a) ks acc)
  /\ forall x, In x (fold_left (fun a k => insert_key k a) ks acc)
               <-> In x acc \/ In x ks.
Proof.
  revert acc. induction ks as [| k ks IH]; intros acc Hacc; cbn [fold_left].
  - split; [exact Hacc |]. cbn [In]. intuition.
  - destruct (IH (insert_key k acc) (insert_key_sorted k acc Hacc)) as [S I].
    split; [exact S |]. intro x. rewrite I, insert_key_In. cbn [In].
    intuition.
Qed.

Lemma sorted_keys_sorted (ks : list Z) : StronglySorted Z.lt (sorted_keys ks).
Proof. apply (sorted_keys_fold ks []). constructor. Qed.

Lemma sorted_keys_In (ks : list Z) (x : Z) : In x (sorted_keys ks) <-> In x ks.
Proof.
  unfold sorted_keys.
  destruct (sorted_keys_fold ks [] (SSorted_nil _)) as [_ I].
  rewrite I. cbn [In]. intuition.
Qed.

Lemma sorted_lt_NoDup (l : list Z) : StronglySorted Z.lt l -> NoDup l.
Proof.
  induction 1 as [| a l _ IH Ha]; constructor; [| exact IH].
  intro Hin. rewrite Forall_forall in Ha. specialize (Ha a Hin). lia.
Qed.

(** X11. The years of the series returned are strictly increasing: no year
    occurs twice, whatever the links. *)
Theorem build_event_effects_years_increase
    (df : DataFrame) (target_code : string) :
  StronglySorted Z.lt (map fst (build_event_effects df target_code))
  /\ NoDup (map fst (build_event_effects df target_code)).
Proof.
  assert (S : StronglySorted Z.lt
                (map fst (build_event_effects df target_code))).
  { unfold build_event_effects.
    destruct (filter (fun r => col_eqb (record_type r) "event") df);
      [constructor |].
    destruct (filter (fun r => col_eqb (record_type r) "impact_link") df);
      [constructor |].
    destruct (flat_map row_effects _) as [| c cs]; [constructor |].
    unfold groupby_sum. rewrite map_map. cbn [fst]. rewrite map_id.
    apply sorted_keys_sorted. }
  split; [exact S | now apply sorted_lt_NoDup].
Qed.

(** X14. The series is empty unless the table holds an event row and an
    impact link for the target indicator that carries a date of its own:
    without both, no year ever gets an effect. *)
Theorem build_event_effects_nonempty_needs
    (df : DataFrame) (target_code : string) :
  build_event_effects df target_code <> [] ->
  (exists e, In e df /\ record_type e = Some "event")
  /\ (exists l d,
         In l df /\ record_type l = Some "impact_link"
         /\ related_indicator l = Some target_code
         /\ observation_date l = Some d).
Proof.
  unfold build_event_effects.
  destruct (filter (fun r => col_eqb (record_type r) "event") df)
    as [| e events] eqn:Eev; [congruence |].
  destruct (filter (fun r => col_eqb (record_type r) "impact_link") df)
    as [| l links] eqn:El; [congruence |].
  destruct (flat_map row_effects _) as [| c cs] eqn:Ec; [congruence |].
  intros _. split.
  - exists e.
    assert (H : In e (filter (fun r => col_eqb (record_type r) "event") df))
      by (rewrite Eev; now left).
    apply filter_In in H. destruct H as [H1 H2].
    split; [exact H1 | now apply col_eqb_eq].
  - assert (Hc : In c (flat_map row_effects
                         (loop_rows (merge_left (l :: links) (e :: events))
                                    target_code)))
      by (rewrite Ec; now left).
    apply in_flat_map in Hc. destruct Hc as (j & Hj & Hcj).
    unfold loop_rows in Hj. apply filter_In in Hj. destruct Hj as [Hj Hrel].
    apply merge_left_link in Hj. rewrite <- El in Hj.
    apply filter_In in Hj. destruct Hj as [Hin Ht].
    unfold row_effects in Hcj.
    destruct (observation_date (link j)) as [d |] eqn:Ed; [| destruct Hcj].
    exists (link j), d. repeat split; auto; now apply col_eqb_eq.
Qed.

Lemma build_event_effects_nonempty_needs_witness :
  exists l d,
    In l link_dated_parent_missing
    /\ related_indicator l = Some "X" /\ observation_date l = Some d.
Proof.
  destruct (build_event_effects_nonempty_needs link_dated_parent_missing "X")
    as (_ & l & d & Hl & _ & Hr & Hd).
  - vm_compute. discriminate.
  - now exists l, d.
Defined.

(** ** Forecasts tab: overlay without links, choice of the usage series *)

Lemma isin_In (c : option string) (names : list string) :
  isin c names = true <-> exists s, c = Some s /\ In s names.
Proof.
  destruct c as [s |]; cbn [isin].
  - rewrite existsb_exists. split.
    + intros (x & Hx & E). apply String.eqb_eq in E. subst. now exists x.
    + intros (x & E & Hx). injection E as ->. exists x.
      split; [exact Hx | apply String.eqb_refl].
  - split; [discriminate | intros (s & E & _); discriminate].
Qed.

(** X16. The usage series of the Forecasts tab: if any observation has the
    code USG_DIGITAL_PAYMENT the series is exactly the observations with
    that code and the label names it; otherwise the series is exactly the
    observations with the code ACC_MM_ACCOUNT and the label says proxy.
    Rows of every gender are kept, in table order. *)
Theorem usage_series_choice (obs : DataFrame) :
  let digital := fun r => col_eqb (indicator_code r) "USG_DIGITAL_PAYMENT" in
  let mobile := fun r => col_eqb (indicator_code r) "ACC_MM_ACCOUNT" in
  ((exists r, In r obs /\ indicator_code r = Some "USG_DIGITAL_PAYMENT") ->
   usage_series obs = (filter digital obs, "USG_DIGITAL_PAYMENT"))
  /\ ((forall r, In r obs ->
                 indicator_code r <> Some "USG_DIGITAL_PAYMENT") ->
      usage_series obs = (filter mobile obs, "ACC_MM_ACCOUNT (proxy)")).
Proof.
  intros digital mobile. unfold usage_series.
  set (both := fun r => isin (indicator_code r)
                             ["USG_DIGITAL_PAYMENT"; "ACC_MM_ACCOUNT"]).
  assert (Hd : filter digital (filter both obs) = filter digital obs).
  { rewrite filter_twice. apply filter_ext. intro r. unfold both, digital.
    destruct (indicator_code r) as [s |]; cbn; [| reflexivity].
    destruct (String.eqb_spec s "USG_DIGITAL_PAYMENT") as [-> | _];
      [reflexivity |]. now rewrite andb_false_r. }
  assert (Hm : filter mobile (filter both obs) = filter mobile obs).
  { rewrite filter_twice. apply filter_ext. intro r. unfold both, mobile.
    destruct (indicator_code r) as [s |]; cbn; [| reflexivity].
    destruct (String.eqb_spec s "ACC_MM_ACCOUNT") as [-> | _];
      [reflexivity |]. now rewrite andb_false_r. }
  fold both digital mobile. rewrite Hd, Hm.
  split.
  - intros (r & Hr & Hc).
    replace (existsb digital (filter both obs)) with true; [reflexivity |].
    symmetry. apply existsb_exists. exists r. split.
    + apply filter_In. split; [exact Hr |]. unfold both. rewrite Hc.
      reflexivity.
    + unfold digital. rewrite Hc. reflexivity.
  - intro Hnone.
    replace (existsb digital (filter both obs)) with false; [reflexivity |].
    symmetry. apply not_true_is_false. intro H.
    apply existsb_exists in H. destruct H as (r & Hr & Hc).
    apply filter_In in Hr. destruct Hr as [Hr _].
    apply col_eqb_eq in Hc. now apply (Hnone r Hr).
Qed.

Lemma usage_series_choice_witness :
  usage_series two_points
  = (filter (fun r => col_eqb (indicator_code r) "ACC_MM_ACCOUNT") two_points,
     "ACC_MM_ACCOUNT (proxy)").
Proof.
  apply (usage_series_choice two_points).
  intros r Hr. simpl in Hr.
  destruct Hr as [<- | [<- | []]]; discriminate.
Defined.

(** ** Inclusion Projections tab: scenario order, progress fraction *)

(** X17. On a forecast row holding the number v, the base scenario gives v
    back, and the three scenarios are ordered pessimistic <= base <=
    optimistic when v >= 0; when v <= 0 the order is reversed. *)
Theorem scenario_order (fc : Frame) (f : list cell) (i : nat) (v : Q) :
  getitem fc "forecast" = Some f ->
  nth_error f i = Some (Float v) ->
  exists fp fb fo vp vb vo,
    assign_scenario fc pessimistic = Some fp
    /\ assign_scenario fc base = Some fb
    /\ assign_scenario fc optimistic = Some fo
    /\ cell_at fp "scenario" i = Some (Float vp)
    /\ cell_at fb "scenario" i = Some (Float vb)
    /\ cell_at fo "scenario" i = Some (Float vo)
    /\ (vb == v)%Q
    /\ ((0 <= v)%Q -> (vp <= vb)%Q /\ (vb <= vo)%Q)
    /\ ((v <= 0)%Q -> (vo <= vb)%Q /\ (vb <= vp)%Q).
Proof.
  intros Hf Hv. unfold assign_scenario. rewrite Hf.
  do 6 eexists. do 3 (split; [reflexivity |]).
  unfold cell_at. rewrite !getitem_setitem_same. unfold scale_col.
  rewrite !nth_error_map, Hv. cbn [option_map cell_scale cell_value].
  do 3 (split; [reflexivity |]).
  cbn [scenario_factors]. repeat split; lra.
Qed.

Lemma scenario_order_witness :
  let fc := [("year", [Int 2025]); ("forecast", [Float 50]);
             ("ci_low", [Float 48]); ("ci_high", [Float 52])] in
  exists fp fo vp vo,
    assign_scenario fc pessimistic = Some fp
    /\ assign_scenario fc optimistic = Some fo
    /\ cell_at fp "scenario" 0 = Some (Float vp)
    /\ cell_at fo "scenario" 0 = Some (Float vo)
    /\ (vp <= vo)%Q.
Proof.
  intro fc.
  destruct (scenario_order fc [Float 50] 0 50 eq_refl eq_refl)
    as (fp & fb & fo & vp & vb & vo & H1 & _ & H3 & H4 & _ & H6 & _ & H & _).
  exists fp, fo, vp, vo. repeat split; try assumption.
  destruct H as [Ha Hb]; [unfold Qle; simpl; lia |].
  now apply Qle_trans with vb.
Defined.

Lemma py_min_spec (a b : Q) :
  ((b < a)%Q -> py_min a b = b) /\ ((a <= b)%Q -> py_min a b = a).
Proof.
  unfold py_min. destruct (b ?= a)%Q eqn:C.
  - apply Qeq_alt in C. split; [intro H; rewrite C in H; lra | reflexivity].
  - split; [reflexivity |]. apply Qlt_alt in C. intro H. lra.
  - apply Qgt_alt in C. split; [intro H; lra | reflexivity].
Qed.

Lemma or_zero_value (x : Q) : (or_zero (Some x) == x)%Q.
Proof.
  unfold or_zero. destruct (Qeq_bool x 0) eqn:E; [| reflexivity].
  apply Qeq_bool_eq in E. now rewrite E.
Qed.

(** X18. The fraction handed to the progress bar never exceeds 1: it is
    latest / 60 while the latest account-ownership value is at most 60,
    exactly 1 from 60 on, and 0 when there is no such value; it is
    negative only for a negative latest value. *)
Theorem progress_fraction_capped (data : DataFrame) :
  let latest := latest_value data "ACC_OWNERSHIP" (Some "all") in
  (progress_fraction data <= 1)%Q
  /\ (latest = None -> (progress_fraction data == 0)%Q)
  /\ (forall v,
         latest = Some v ->
         ((v <= 60)%Q -> (progress_fraction data == v / 60)%Q)
         /\ ((60 <= v)%Q -> (progress_fraction data == 1)%Q)
         /\ ((0 <= v)%Q -> (0 <= progress_fraction data)%Q)).
Proof.
  intro latest. unfold progress_fraction. fold latest.
  set (x := or_zero latest).
  destruct (py_min_spec (x / 60) 1.0) as [Hlt Hle].
  assert (Hone : (1.0 == 1)%Q) by reflexivity.
  assert (Hcap : (py_min (x / 60) 1.0 <= 1)%Q).
  { destruct (Qlt_le_dec 1.0 (x / 60)) as [H | H].
    - rewrite (Hlt H). lra.
    - rewrite (Hle H). lra. }
  split; [exact Hcap |]. split.
  - intro E. unfold x. rewrite E. cbn [or_zero]. reflexivity.
  - intros v E.
    assert (Hx : (x == v)%Q) by (unfold x; rewrite E; apply or_zero_value).
    assert (Hdiv : (x / 60 == v / 60)%Q) by now rewrite Hx.
    repeat split.
    + intro Hv. rewrite Hle; [exact Hdiv |].
      rewrite Hdiv. apply Qle_shift_div_r; lra.
    + intro Hv. destruct (Qlt_le_dec 1.0 (x / 60)) as [H | H].
      * rewrite (Hlt H). reflexivity.
      * rewrite (Hle H). rewrite Hdiv in *.
        apply Qle_antisym; [lra |].
        apply Qle_shift_div_l; lra.
    + intro Hv. destruct (Qlt_le_dec 1.0 (x / 60)) as [H | H].
      * rewrite (Hlt H). lra.
      * rewrite (Hle H), Hdiv. apply Qle_shift_div_l; lra.
Qed.

Lemma progress_fraction_capped_witness :
  (progress_fraction two_points == 15 / 60)%Q.
Proof.
  destruct (progress_fraction_capped two_points) as (_ & _ & H).
  destruct (H 15%Q eq_refl) as [H1 _].
  apply H1. unfold Qle; simpl; lia.
Defined.

(** ** Trends tab: slider bounds and the year filter *)

Lemma fold_min_bounds (ys : list Z) (y : Z) :
  fold_left Z.min ys y <= y
  /\ (forall x, In x ys -> fold_left Z.min ys y <= x)
  /\ In (fold_left Z.min ys y) (y :: ys).
Proof.
  revert y. induction ys as [| a ys IH]; intro y; cbn [fold_left].
  - split; [lia |]. split; [intros x [] | now left].
  - destruct (IH (Z.min y a)) as (H1 & H2 & H3).
    split; [lia |]. split.
    + intros x [<- | Hx]; [lia | now apply H2].
    + destruct H3 as [H3 | H3].
      * rewrite <- H3. destruct (Z.min_spec y a) as [[_ ->] | [_ ->]];
          [now left | right; now left].
      * right. now right.
Qed.

Lemma fold_max_bounds (ys : list Z) (y : Z) :
  y <= fold_left Z.max ys y
  /\ (forall x, In x ys -> x <= fold_left Z.max ys y).
Proof.
  revert y. induction ys as [| a ys IH]; intro y; cbn [fold_left].
  - split; [lia | intros x []].
  - destruct (IH (Z.max y a)) as (H1 & H2).
    split; [lia |]. intros x [<- | Hx]; [lia | now apply H2].
Qed.

Lemma years_of_In (obs : DataFrame) (y : Z) :
  In y (years_of obs) <-> exists r, In r obs /\ year r = Some y.
Proof.
  unfold years_of. rewrite in_flat_map. split.
  - intros (r & Hr & Hy). exists r. split; [exact Hr |].
    destruct (year r) as [z |]; [| destruct Hy].
    destruct Hy as [<- | []]. reflexivity.
  - intros (r & Hr & Hy). exists r. split; [exact Hr |].
    rewrite Hy. now left.
Qed.

(** X19. The year slider can be built exactly when some observation has a
    year; its bounds then satisfy min <= max, the minimum is the year of
    an observation, and with the slider left at its full range the year
    filter keeps every row of the selected indicators that has a year and
    drops those without one. *)
Theorem trend_df_full_range (obs : DataFrame) (selected : list string) :
  (year_min obs = None <-> forall r, In r obs -> year r = None)
  /\ (year_min obs = None <-> year_max obs = None)
  /\ (forall lo hi,
         year_min obs = Some lo -> year_max obs = Some hi ->
         lo <= hi
         /\ (exists r, In r obs /\ year r = Some lo)
         /\ (forall r y, In r obs -> year r = Some y -> lo <= y <= hi)
         /\ trend_df obs selected lo hi
            = filter (fun r => isin (indicator_code r) selected
                               && notna (year r)) obs).
Proof.
  unfold year_min, year_max.
  pose proof (years_of_In obs) as HIn.
  destruct (years_of obs) as [| y0 ys] eqn:E.
  - split; [| split].
    + split; [| reflexivity]. intros _ r Hr.
      destruct (year r) as [y |] eqn:Ey; [| reflexivity].
      exfalso. apply (proj2 (HIn y)). now exists r.
    + tauto.
    + discriminate.
  - split; [| split].
    + split; [discriminate |]. intro H. exfalso.
      destruct (proj1 (HIn y0) (or_introl eq_refl)) as (r & Hr & Hy).
      rewrite (H r Hr) in Hy. discriminate.
    + split; discriminate.
    + intros lo hi Hlo Hhi. injection Hlo as <-. injection Hhi as <-.
      destruct (fold_min_bounds ys y0) as (M1 & M2 & M3).
      destruct (fold_max_bounds ys y0) as (X1 & X2).
      assert (Hb : forall r y, In r obs -> year r = Some y ->
                               fold_left Z.min ys y0 <= y
                               <= fold_left Z.max ys y0).
      { intros r y Hr Hy.
        assert (Hin : In y (y0 :: ys)) by (apply HIn; now exists r).
        destruct Hin as [<- | Hin]; [lia |].
        specialize (M2 y Hin). specialize (X2 y Hin). lia. }
      split; [lia |]. split; [now apply HIn |]. split; [exact Hb |].
      unfold trend_df. rewrite filter_twice. apply filter_ext_in.
      intros r Hr. f_equal. unfold year_between.
      destruct (year r) as [y |] eqn:Ey; [| reflexivity].
      destruct (Hb r y Hr Ey) as [B1 B2]. cbn [notna].
      apply andb_true_iff. split; now apply Z.leb_le.
Qed.

Lemma trend_df_full_range_witness :
  trend_df two_points ["ACC_OWNERSHIP"] 2020 2021
  = filter (fun r => isin (indicator_code r) ["ACC_OWNERSHIP"]
                     && notna (year r)) two_points.
Proof.
  destruct (trend_df_full_range two_points ["ACC_OWNERSHIP"]) as (_ & _ & H).
  destruct (H 2020 2021 eq_refl eq_refl) as (_ & _ & _ & E).
  exact E.
Defined.

(* ================================================================== *)
(** * Properties that hold whatever the library does *)

(** ** Metric extractor: the last-step change under any sort *)

Lemma sort_values_observation_date_sorts :
  sorts_by_date sort_values_observation_date.
Proof.
  intro df. split; [apply sort_values_perm | apply sort_values_sorted].
Qed.

Lemma kept_rows_In (df : DataFrame) (code gen : string) (r : Row) :
  In r (filter has_value_and_date (filter (observation_of code gen) df)) <->
  In r df
  /\ indicator_code r = Some code /\ gender r = Some gen
  /\ record_type r = Some "observation"
  /\ (exists v, value_numeric r = Some v)
  /\ (exists d, observation_date r = Some d).
Proof.
  rewrite !filter_In. unfold has_value_and_date, observation_of.
  rewrite !andb_true_iff, !col_eqb_eq, !notna_true. tauto.
Qed.

(** C9. Whatever way [sort_values] orders the rows (it returns the same
    rows with ascending dates; rows of equal date in any order),
    [trend_growth] keeps the observations of the indicator and gender that
    carry a value and a date and returns latest minus previous of the last
    two rows of the sorted subset; with fewer than two such rows it returns
    None.  One point gives None; 2020 -> 10, 2021 -> 15 gives +5.  When the
    kept rows have pairwise different dates the result does not depend on
    the sort at all. *)
Theorem trend_growth_last_two
    (sort_values : DataFrame -> DataFrame) (df : DataFrame)
    (code gen : string) :
  sorts_by_date sort_values ->
  let kept := filter has_value_and_date (filter (observation_of code gen) df) in
  let subset := trend_subset_by sort_values df code gen in
  (forall r, In r subset <->
             In r df
             /\ indicator_code r = Some code /\ gender r = Some gen
             /\ record_type r = Some "observation"
             /\ (exists v, value_numeric r = Some v)
             /\ (exists d, observation_date r = Some d))
  /\ Permutation kept subset
  /\ StronglySorted date_le subset
  /\ ((List.length kept < 2)%nat ->
      trend_growth_by sort_values df code gen = None)
  /\ (forall init previous latest,
         subset = init ++ [previous; latest] ->
         exists vp vl,
           value_numeric previous = Some vp
           /\ value_numeric latest = Some vl
           /\ date_le previous latest
           /\ trend_growth_by sort_values df code gen = Some (vl - vp)%Q)
  /\ (NoDup (map observation_date kept) ->
      trend_growth_by sort_values df code gen = trend_growth df code gen)
  /\ trend_growth_by sort_values one_point "ACC_OWNERSHIP" "all" = None
  /\ trend_growth_by sort_values two_points "ACC_OWNERSHIP" "all"
     = Some 5%Q.
Proof.
  intros Hsort kept subset.
  assert (Hany : forall df0 c g,
             NoDup (map observation_date
                        (filter has_value_and_date
                                (filter (observation_of c g) df0))) ->
             trend_growth_by sort_values df0 c g = trend_growth df0 c g).
  { intros df0 c g N.
    assert (E : trend_subset df0 c g = trend_subset_by sort_values df0 c g).
    { unfold trend_subset, trend_subset_by.
      set (k := filter has_value_and_date (filter (observation_of c g) df0))
        in *.
      destruct (Hsort k) as [P S].
      apply sorted_by_date_unique.
      - rewrite <- P. apply Permutation_sym, sort_values_perm.
      - apply sort_values_sorted.
      - exact S.
      - eapply Permutation_NoDup; [| exact N].
        apply Permutation_map, sort_values_perm. }
    unfold trend_growth_by, trend_growth. now rewrite E. }
  assert (Esub : subset = sort_values kept) by reflexivity.
  clearbody subset. subst subset.
  destruct (Hsort kept) as [P S].
  split.
  { intro r. rewrite <- (kept_rows_In df code gen r). fold kept.
    split; intro H.
    - now apply (Permutation_in _ (Permutation_sym P)).
    - now apply (Permutation_in _ P). }
  split; [exact P |]. split; [exact S |].
  split.
  { intro Hlen. unfold trend_growth_by, trend_subset_by. fold kept.
    rewrite <- (Permutation_length P).
    apply Nat.ltb_lt in Hlen. now rewrite Hlen. }
  split.
  { intros init previous latest Hs.
    assert (Hp : In previous kept).
    { apply (Permutation_in _ (Permutation_sym P)). rewrite Hs.
      apply in_or_app; right; simpl; auto. }
    assert (Hl : In latest kept).
    { apply (Permutation_in _ (Permutation_sym P)). rewrite Hs.
      apply in_or_app; right; simpl; auto. }
    apply kept_rows_In in Hp. apply kept_rows_In in Hl.
    destruct Hp as (_ & _ & _ & _ & [vp Hvp] & _).
    destruct Hl as (_ & _ & _ & _ & [vl Hvl] & _).
    exists vp, vl. split; [exact Hvp | split; [exact Hvl |]].
    split.
    - rewrite Hs in S. change [previous; latest] with ([previous] ++ [latest])
        in S. rewrite app_assoc in S. apply sorted_last_max in S.
      rewrite Forall_forall in S. apply S, in_or_app. right. now left.
    - unfold trend_growth_by, trend_subset_by. fold kept. rewrite Hs.
      replace (Nat.ltb (List.length (init ++ [previous; latest])) 2)
        with false
        by (symmetry; apply Nat.ltb_ge; rewrite length_app; simpl; lia).
      unfold iloc_last2. rewrite rev_app_distr. simpl.
      now rewrite Hvp, Hvl. }
  split; [apply Hany |].
  split.
  - rewrite Hany; [reflexivity |]. cbn. repeat constructor. simpl. tauto.
  - rewrite Hany; [reflexivity |]. cbn.
    repeat constructor; simpl; intuition discriminate.
Qed.

Lemma trend_growth_last_two_witness :
  sorts_by_date sort_values_observation_date
  /\ (List.length
        (filter has_value_and_date
           (filter (observation_of "ACC_OWNERSHIP" "all") one_point)) < 2)%nat
  /\ trend_growth_by sort_values_observation_date one_point
                     "ACC_OWNERSHIP" "all" = None.
Proof.
  split; [exact sort_values_observation_date_sorts |].
  split; [simpl; lia |].
  destruct (trend_growth_last_two sort_values_observation_date one_point
              "ACC_OWNERSHIP" "all" sort_values_observation_date_sorts)
    as (_ & _ & _ & H & _).
  apply H. simpl; lia.
Defined.

(** ** Event-effect compositor: the lag, with the raising paths *)



(** ** Inclusion Projections tab: the scenario column *)



